(** * DocDown: the document-to-Markdown translation engine

    A shallow embedding of [docdown.py]: the heading classifier
    ([get_heading_level]), the asset extractor ([extract_images]) and the
    paragraph loop, fence state machine and blank-line post-pass of
    [convert_to_markdown].

    The archive parser (python-docx) is a black box.  Its objects are
    modelled by records holding exactly what the program reads from them.
    Python strings are modelled by [string], one character for one code
    point below 128; the string methods below are their Python
    counterparts on such strings.  Characters beyond ASCII that Python
    takes for white space, for letters with a lower case or for decimal
    digits are outside the model. *)

From Stdlib Require Import ZArith Ascii String List Bool Lia.
From stdpp Require Import base option list strings gmap pretty.

Local Open Scope string_scope.
Local Open Scope list_scope.

(** ** Python string methods *)

Module PyStr.

(** [str.isspace] on one ASCII character: TAB, LF, VT, FF, CR, the four
    separators FS, GS, RS, US, and the space. *)
Definition isspace (c : ascii) : bool :=
  let n := nat_of_ascii c in
  ((9 <=? n)%nat && (n <=? 13)%nat) || ((28 <=? n)%nat && (n <=? 32)%nat).

Fixpoint lstrip (s : string) : string :=
  match s with
  | String c s' => if isspace c then lstrip s' else s
  | EmptyString => EmptyString
  end.

(** [rstrip]: a character is dropped when it is white and everything
    after it has been dropped. *)
Fixpoint rstrip (s : string) : string :=
  match s with
  | String c s' =>
      match rstrip s' with
      | EmptyString => if isspace c then EmptyString else String c EmptyString
      | r => String c r
      end
  | EmptyString => EmptyString
  end.

Definition strip (s : string) : string := rstrip (lstrip s).

(** Truth value of a string: non-empty. *)
Definition truthy (s : string) : bool :=
  match s with EmptyString => false | String _ _ => true end.

Definition lower_char (c : ascii) : ascii :=
  let n := nat_of_ascii c in
  if ((65 <=? n)%nat && (n <=? 90)%nat) then ascii_of_nat (n + 32) else c.

Fixpoint lower (s : string) : string :=
  match s with
  | String c s' => String (lower_char c) (lower s')
  | EmptyString => EmptyString
  end.

Definition startswith (s p : string) : bool := String.prefix p s.

(** [sub in s] *)
Fixpoint contains (sub s : string) : bool :=
  String.prefix sub s ||
  match s with
  | String _ s' => contains sub s'
  | EmptyString => false
  end.

(** [s.split()]: the maximal runs of non-white characters. *)
Fixpoint split_ws_go (cur : string) (s : string) : list string :=
  match s with
  | String c s' =>
      if isspace c
      then (if truthy cur then [String.rev cur] else []) ++ split_ws_go EmptyString s'
      else split_ws_go (String c cur) s'
  | EmptyString => if truthy cur then [String.rev cur] else []
  end.

Definition split_ws (s : string) : list string := split_ws_go EmptyString s.

(** [s.split(sep)] for a one-character separator: never empty. *)
Fixpoint split_on_go (sep : ascii) (cur : string) (s : string) : list string :=
  match s with
  | String c s' =>
      if Ascii.eqb c sep
      then String.rev cur :: split_on_go sep EmptyString s'
      else split_on_go sep (String c cur) s'
  | EmptyString => [String.rev cur]
  end.

Definition split_on (sep : ascii) (s : string) : list string :=
  split_on_go sep EmptyString s.

(** [s.replace(c, by)] for a one-character pattern. *)
Fixpoint replace (c : ascii) (by_ : string) (s : string) : string :=
  match s with
  | String d s' =>
      (if Ascii.eqb d c then by_ else String d EmptyString) +:+ replace c by_ s'
  | EmptyString => EmptyString
  end.

(** [''.join(l)] *)
Definition join (l : list string) : string := String.concat EmptyString l.

(** [s * n]; a count below one gives the empty string. *)
Fixpoint repeat_nat (s : string) (n : nat) : string :=
  match n with
  | O => EmptyString
  | S n' => s +:+ repeat_nat s n'
  end.

Definition repeat (s : string) (n : Z) : string := repeat_nat s (Z.to_nat n).

Definition digit_of (c : ascii) : option Z :=
  let n := nat_of_ascii c in
  if ((48 <=? n)%nat && (n <=? 57)%nat) then Some (Z.of_nat (n - 48)) else None.

(** Decimal digits, single underscores allowed between two digits.
    [prev] tells whether the previous character was a digit. *)
Fixpoint parse_digits (acc : Z) (prev : bool) (s : string) : option Z :=
  match s with
  | String c s' =>
      match digit_of c with
      | Some d => parse_digits (10 * acc + d)%Z true s'
      | None =>
          if Ascii.eqb c "_"%char && prev
          then match s' with
               | String _ _ => parse_digits acc false s'
               | EmptyString => None
               end
          else None
      end
  | EmptyString => if prev then Some acc else None
  end.

(** The number of decimal digits of a string. *)
Fixpoint count_digits (s : string) : nat :=
  match s with
  | String c s' =>
      match digit_of c with
      | Some _ => S (count_digits s')
      | None => count_digits s'
      end
  | EmptyString => O
  end.

(** [sys.int_info.default_max_str_digits] *)
Definition max_str_digits : nat := 4300.

(** The digits after the sign: more than [max_str_digits] of them are
    refused. *)
Definition parse_unsigned (s : string) : option Z :=
  if (max_str_digits <? count_digits s)%nat then None
  else parse_digits 0 false s.

(** [int(s)] in base ten; [None] stands for the [ValueError].  White
    space around the numeral is dropped, one sign is allowed, and a
    numeral with more than [max_str_digits] digits is refused whatever its
    value. *)
Definition int (s : string) : option Z :=
  match strip s with
  | String "+"%char r => parse_unsigned r
  | String "-"%char r => Z.opp <$> parse_unsigned r
  | t => parse_unsigned t
  end.

(** [os.path.join(a, b)] of [posixpath]. *)
Definition path_join (a b : string) : string :=
  if startswith b "/" then b
  else if negb (truthy a) || startswith (String.rev a) "/" then a +:+ b
  else a +:+ "/" +:+ b.

End PyStr.

(** ** The document, as the program reads it *)

(** Run properties ([w:rPr]): the [w:sz] child with its [w:val] attribute,
    when present, and whether a [w:b] child is present. *)
Record RPr := mkRPr {
  rPr_sz : option (option string);
  rPr_b : bool
}.

(** [run.font]: the program tests the object for truth and reads its
    [name]; python-docx always hands out a font proxy, whose name is
    [None] when the run declares no font name. *)
Record Font := mkFont {
  font_name : option string
}.

(** The graphic inside a [wp:inline] or [wp:anchor]: the [a:blip] child
    with its [r:embed] attribute, and the [wp:docPr] child with its
    [descr] attribute. *)
Record Graphic := mkGraphic {
  blip_embed : option (option string);
  docPr_descr : option (option string)
}.

(** A [w:drawing] element of a run. *)
Record Drawing := mkDrawing {
  inline : option Graphic;
  anchor : option Graphic
}.

Record Run := mkRun {
  text : string;
  rPr : option RPr;
  font : option Font;
  drawings : list Drawing
}.

Record Paragraph := mkParagraph {
  style_name : string;
  runs : list Run
}.

(** ** Paragraph classifier: [get_heading_level] *)

(** The [for run in paragraph.runs] loop that stops at the first run whose
    [rPr] is not [None]. *)
Fixpoint first_rPr (rs : list Run) : option RPr :=
  match rs with
  | r :: rs' =>
      match rPr r with
      | Some rp => Some rp
      | None => first_rPr rs'
      end
  | [] => None
  end.

(** [int(sz_elem.get(qn('w:val')))]: a missing attribute is a [TypeError],
    a malformed one a [ValueError]. *)
Definition sz_val (v : option string) : option Z := v ≫= PyStr.int.

Definition bold_level (rp : RPr) : Z := if rPr_b rp then 3 else 0.

(** Every exception raised inside the function is caught by its handler,
    which returns 0. *)
Definition get_heading_level (p : Paragraph) : Z :=
  let style_name := style_name p in
  if PyStr.startswith style_name "Heading" then
    match PyStr.int (List.last (PyStr.split_ws style_name) EmptyString) with
    | Some n => n
    | None => 0
    end
  else if String.eqb style_name "Title" then 1
  else
    match first_rPr (runs p) with
    | Some run_props =>
        match rPr_sz run_props with
        | Some v =>
            match sz_val v with
            | Some n =>
                let size := (n / 2)%Z in
                if (20 <=? size)%Z then 1
                else if (16 <=? size)%Z then 2
                else if (14 <=? size)%Z then 3
                else bold_level run_props
            | None => 0
            end
        | None => bold_level run_props
        end
    | None => 0
    end%Z.

(** ** Asset extractor: [extract_images] *)

(** [rel.target_part], as far as the program looks: whether it has a
    [blob] attribute, and the bytes. *)
Record Part := mkPart {
  blob : option (list Byte.byte)
}.

(** Reading an attribute of an object of the archive parser: the object
    has no such attribute ([hasattr] is false), reading it raises an
    exception other than [AttributeError], which [hasattr] lets through,
    or it has a value. *)
Inductive Attr (A : Type) :=
  | Missing
  | Raising (msg : string)
  | Present (a : A).

Arguments Missing {A}.
Arguments Raising {A} msg.
Arguments Present {A} a.

(** One entry of [doc.part.rels].  Reading [target_part] raises
    [ValueError] when the target of the relationship is external, as for
    a linked image. *)
Record Rel := mkRel {
  rId : string;
  reltype : string;
  rel_target_part : Attr Part;
  target_ref : string
}.

(** [rel.target_part], when reading it gives a part. *)
Definition target_part (rel : Rel) : option Part :=
  match rel_target_part rel with
  | Present part => Some part
  | Missing => None
  | Raising _ => None
  end.

Record ConversionStats := mkStats {
  total_files : nat;
  successful_files : list string;
  failed_files : list (string * string);
  total_images : nat;
  failed_images : list (string * string);
  file_image_counts : gmap string nat
}.

(** Outcome of [open(path, 'wb')] followed by [write]: done, or an
    exception with its message. *)
Inductive IOResult :=
  | Written
  | Raised (msg : string).

(** The state of the loop over the relationships, with the files the
    loop has written so far. *)
Record ExtractState := mkExtract {
  image_refs : gmap string string;
  file_image_count : nat;
  stats : ConversionStats;
  written_files : list (string * list Byte.byte)
}.

Definition add_failed_image (st : ConversionStats) (e : string * string) : ConversionStats :=
  {| total_files := total_files st;
     successful_files := successful_files st;
     failed_files := failed_files st;
     total_images := total_images st;
     failed_images := failed_images st ++ [e];
     file_image_counts := file_image_counts st |}.

Definition record_image_count (st : ConversionStats) (doc_name : string) (n : nat) : ConversionStats :=
  {| total_files := total_files st;
     successful_files := successful_files st;
     failed_files := failed_files st;
     total_images := total_images st + n;
     failed_images := failed_images st;
     file_image_counts := <[doc_name := n]> (file_image_counts st) |}.

Definition known_exts : list string := ["png"; "jpg"; "jpeg"; "gif"; "bmp"].

Definition image_ext (rel : Rel) : string :=
  let image_ext := PyStr.lower (List.last (PyStr.split_on "." (target_ref rel)) EmptyString) in
  if bool_decide (image_ext ∈ known_exts) then image_ext else "png".

Definition image_filename (doc_name : string) (n : nat) (rel : Rel) : string :=
  doc_name +:+ "_image_" +:+ pretty n +:+ "." +:+ image_ext rel.

Definition image_error (doc_name : string) (n : nat) (msg : string) : string :=
  "Failed to extract image " +:+ pretty n +:+ " from " +:+ doc_name +:+ ": " +:+ msg.

(** The bytes the program reads from a relationship; none when an
    attribute is missing. *)
Definition payload (rel : Rel) : list Byte.byte :=
  default [] (target_part rel ≫= blob).

(** The relationships for which an extraction is started: image
    relationships with a payload that is not empty. *)
Definition attempted (rel : Rel) : bool :=
  PyStr.contains "image" (reltype rel) &&
  match payload rel with [] => false | _ :: _ => true end.

Fixpoint numbered {A : Type} (n : nat) (l : list A) : list (nat * A) :=
  match l with
  | x :: l' => (n, x) :: numbered (S n) l'
  | [] => []
  end.

(** The exception the condition of the loop body raises on a
    relationship, if any: evaluated left to right, it reads
    [target_part] only for an image relationship. *)
Definition guard_raises (rel : Rel) : option string :=
  if PyStr.contains "image" (reltype rel) then
    match rel_target_part rel with
    | Raising msg => Some msg
    | Missing => None
    | Present _ => None
    end
  else None.

(** The relationships the loop gets through: those before the first one
    on which the condition raises. *)
Fixpoint scanned (rels : list Rel) : list Rel :=
  match rels with
  | rel :: rest =>
      match guard_raises rel with
      | Some _ => []
      | None => rel :: scanned rest
      end
  | [] => []
  end.

(** The exception that ends the loop early, if any. *)
Fixpoint scan_error (rels : list Rel) : option string :=
  match rels with
  | rel :: rest =>
      match guard_raises rel with
      | Some msg => Some msg
      | None => scan_error rest
      end
  | [] => None
  end.

(** The extraction attempts of a document, each with its sequence
    number. *)
Definition attempts (rels : list Rel) : list (nat * Rel) :=
  numbered 1 (List.filter attempted (scanned rels)).

(** Assignments [image_refs[k] = v], in order. *)
Definition insert_all (m : gmap string string) (es : list (string * string))
  : gmap string string :=
  fold_left (fun m e => <[e.1 := e.2]> m) es m.

(** What the loop body does with one relationship: it goes on with a new
    state, or an exception leaves the loop. *)
Inductive LoopStep :=
  | Next (st : ExtractState)
  | Stop (msg : string).

Definition process_error (doc_name msg : string) : string :=
  "Failed to process images in " +:+ doc_name +:+ ": " +:+ msg.

Section Extractor.

(** The file system: what writing given bytes at a given path does. *)
Variable write_file : string -> list Byte.byte -> IOResult.

Variables image_dir doc_name : string.

(** Body of the loop over [doc.part.rels.values()].  The condition is
    outside the inner [try]: an exception of [hasattr] leaves the loop.
    Inside it only the writing of the file can raise. *)
Definition extract_rel (st : ExtractState) (rel : Rel) : LoopStep :=
  if PyStr.contains "image" (reltype rel) then
    match rel_target_part rel with
    | Raising msg => Stop msg
    | Missing => Next st
    | Present part =>
        match blob part with
        | Some image_data =>
            match image_data with
            | [] => Next st
            | _ :: _ =>
                let file_image_count := S (file_image_count st) in
                let image_filename := image_filename doc_name file_image_count rel in
                let image_path := PyStr.path_join image_dir image_filename in
                match write_file image_path image_data with
                | Written =>
                    Next
                    {| image_refs := <[rId rel := "./images/" +:+ image_filename]> (image_refs st);
                       file_image_count := file_image_count;
                       stats := stats st;
                       written_files := written_files st ++ [(image_path, image_data)] |}
                | Raised e =>
                    Next
                    {| image_refs := image_refs st;
                       file_image_count := file_image_count;
                       stats := add_failed_image (stats st)
                                  (doc_name, image_error doc_name file_image_count e);
                       written_files := written_files st |}
                end
            end
        | None => Next st
        end
    end
  else Next st.

(** The loop: the state it ends in, and the exception that ended it, if
    any. *)
Fixpoint extract_loop (st : ExtractState) (rels : list Rel)
  : ExtractState * option string :=
  match rels with
  | rel :: rest =>
      match extract_rel st rel with
      | Next st' => extract_loop st' rest
      | Stop msg => (st, Some msg)
      end
  | [] => (st, None)
  end.

(** [extract_images]: the returned mapping is [image_refs]; [stats] is
    the stats object after the call.  When the loop ends normally the
    counts are recorded; when an exception ends it, the outer handler
    records the failure and returns the mapping as it is. *)
Definition extract_images (rels : list Rel) (stats0 : ConversionStats) : ExtractState :=
  match extract_loop
          {| image_refs := ∅; file_image_count := 0;
             stats := stats0; written_files := [] |} rels with
  | (st, None) =>
      {| image_refs := image_refs st;
         file_image_count := file_image_count st;
         stats := record_image_count (stats st) doc_name (file_image_count st);
         written_files := written_files st |}
  | (st, Some msg) =>
      {| image_refs := image_refs st;
         file_image_count := file_image_count st;
         stats := add_failed_image (stats st) (doc_name, process_error doc_name msg);
         written_files := written_files st |}
  end.

(** What the attempt numbered [a.1] on the relationship [a.2] does: the
    path it writes, the outcome, and what it leaves behind. *)
Definition attempt_path (a : nat * Rel) : string :=
  PyStr.path_join image_dir (image_filename doc_name a.1 a.2).

Definition attempt_result (a : nat * Rel) : IOResult :=
  write_file (attempt_path a) (payload a.2).


Definition written_entry (a : nat * Rel) : option (string * list Byte.byte) :=
  match attempt_result a with
  | Written => Some (attempt_path a, payload a.2)
  | Raised _ => None
  end.

Definition ref_entry (a : nat * Rel) : option (string * string) :=
  match attempt_result a with
  | Written => Some (rId a.2, "./images/" +:+ image_filename doc_name a.1 a.2)
  | Raised _ => None
  end.

Definition failure_entry (a : nat * Rel) : option (string * string) :=
  match attempt_result a with
  | Written => None
  | Raised e => Some (doc_name, image_error doc_name a.1 e)
  end.

End Extractor.

(** ** Run linearizer *)

(** The dictionaries appended to [paragraph_content]: their ['type'] is
    the constructor, their ['content'] the argument. *)
Inductive ContentItem :=
  | Text (content : string)
  | Image (content : string).

Definition content_of (item : ContentItem) : string :=
  match item with
  | Text c => c
  | Image c => c
  end.

Definition is_image (item : ContentItem) : bool :=
  match item with
  | Image _ => true
  | Text _ => false
  end.

Definition image_markdown (alt_text path : string) : string :=
  "![" +:+ alt_text +:+ "](" +:+ path +:+ ")".

Definition alt_text_of (g : Graphic) : string :=
  let alt_text :=
    match docPr_descr g with
    | Some (Some descr) => descr
    | Some None => "Image"
    | None => "Image"
    end in
  PyStr.strip (PyStr.replace "010" " " alt_text).

(** The graphic the program inspects in a drawing: the inline one, else
    the floating one. *)
Definition graphic_of (element : Drawing) : option Graphic :=
  match inline element with
  | Some g => Some g
  | None => anchor element
  end.

Section Linearizer.

Variable image_refs : gmap string string.

(** Body of the loop over the [w:drawing] elements of one run: the item
    appended, if any. *)
Definition drawing_item (element : Drawing) : option ContentItem :=
  let inline_or_anchor := graphic_of element in
  match inline_or_anchor with
  | Some g =>
      match blip_embed g with
      | Some rId =>
          match rId ≫= (image_refs !!.) with
          | Some path => Some (Image (image_markdown (alt_text_of g) path))
          | None => None
          end
      | None => None
      end
  | None => None
  end.

(** What one run appends to [paragraph_content]. *)
Definition run_content (run : Run) : list ContentItem :=
  let images := omap drawing_item (drawings run) in
  let has_image := match images with [] => false | _ :: _ => true end in
  images ++
  (if PyStr.truthy (PyStr.strip (text run)) && negb has_image
   then [Text (text run)] else []).

Definition paragraph_content (paragraph : Paragraph) : list ContentItem :=
  concat (run_content <$> runs paragraph).

End Linearizer.

(** ** Markdown emitter *)

(** One appended line, tagged with the statement that appends it: the two
    fence sites, the empty string, or a computed line. *)
Inductive Emit :=
  | FenceOpen
  | FenceClose
  | Blank
  | Line (s : string).

Definition render (e : Emit) : string :=
  match e with
  | FenceOpen => "```"
  | FenceClose => "```"
  | Blank => ""
  | Line s => s
  end.

Definition monospace (name : option string) : bool :=
  match name with
  | Some n => bool_decide (n ∈ ["Consolas"; "Courier New"])
  | None => false
  end.

(** The generator [run.font.name for run in paragraph.runs if run.font]. *)
Definition tested_font_names (paragraph : Paragraph) : list (option string) :=
  omap (fun run => font_name <$> font run) (runs paragraph).

Definition is_code (paragraph : Paragraph) : bool :=
  PyStr.startswith (PyStr.lower (style_name paragraph)) "code" ||
  forallb monospace (tested_font_names paragraph).

Definition text_items (content : list ContentItem) : list string :=
  omap (fun item => match item with Text c => Some c | Image _ => None end) content.

Definition heading_line (heading_level : Z) (content : list ContentItem) : string :=
  PyStr.repeat "#" heading_level +:+ " " +:+ PyStr.join (text_items content).

Definition code_line (content : list ContentItem) : string :=
  PyStr.replace "009" "    " (PyStr.join (text_items content)).

Definition close_code (in_code_block : bool) : list Emit :=
  if in_code_block then [FenceClose; Blank] else [].

Section Emitter.

Variable image_refs : gmap string string.

(** Body of the loop over [doc.paragraphs]: the lines appended to
    [md_content] and the new value of [in_code_block]. *)
Definition paragraph_step (in_code_block : bool) (paragraph : Paragraph)
  : list Emit * bool :=
  let paragraph_content := paragraph_content image_refs paragraph in
  match paragraph_content with
  | _ :: _ =>
      let heading_level := get_heading_level paragraph in
      if (0 <? heading_level)%Z then
        (close_code in_code_block ++ [Line (heading_line heading_level paragraph_content)],
         false)
      else if is_code paragraph then
        ((if in_code_block then [] else [Blank; FenceOpen])
           ++ [Line (code_line paragraph_content)],
         true)
      else
        (close_code in_code_block ++
           match paragraph_content with
           | [Image c] => [Blank; Line c; Blank]
           | _ =>
               let combined_content := PyStr.join (content_of <$> paragraph_content) in
               if PyStr.truthy (PyStr.strip combined_content)
               then [Line combined_content] else []
           end,
         false)
  | [] => (if in_code_block then [] else [Blank], in_code_block)
  end.

Fixpoint paragraphs_loop (in_code_block : bool) (paragraphs : list Paragraph)
  : list Emit * bool :=
  match paragraphs with
  | paragraph :: rest =>
      let '(out, in_code_block') := paragraph_step in_code_block paragraph in
      let '(out', final) := paragraphs_loop in_code_block' rest in
      (out ++ out', final)
  | [] => ([], in_code_block)
  end.

(** [md_content] when the post-pass starts: the loop, then the closing
    of a block left open. *)
Definition md_content (paragraphs : list Paragraph) : list Emit :=
  let '(out, in_code_block) := paragraphs_loop false paragraphs in
  out ++ close_code in_code_block.

End Emitter.

(** The post-pass, over any representation [A] of a line. *)
Section CleanUp.

Context {A : Type} (line_of : A -> string).

Definition is_blank (line : A) : bool := negb (PyStr.truthy (PyStr.strip (line_of line))).

Fixpoint clean_up (last_was_blank : bool) (lines : list A) : list A :=
  match lines with
  | line :: rest =>
      if negb (is_blank line) then line :: clean_up false rest
      else if negb last_was_blank then line :: clean_up true rest
      else clean_up last_was_blank rest
  | [] => []
  end.

End CleanUp.

(** [cleaned_content], with the tags and as the strings joined into the
    output file. *)
Definition cleaned_emits (image_refs : gmap string string) (paragraphs : list Paragraph)
  : list Emit :=
  clean_up render false (md_content image_refs paragraphs).

Definition md_lines (image_refs : gmap string string) (paragraphs : list Paragraph)
  : list string :=
  render <$> md_content image_refs paragraphs.

Definition cleaned_content (image_refs : gmap string string) (paragraphs : list Paragraph)
  : list string :=
  clean_up id false (md_lines image_refs paragraphs).

Definition markdown_text (image_refs : gmap string string) (paragraphs : list Paragraph)
  : string :=
  String.concat (String "010" EmptyString) (cleaned_content image_refs paragraphs).

(** The role of a paragraph: the branch of [paragraph_step] it takes. *)
Inductive Kind :=
  | Heading (level : Z)
  | Code
  | ImageOnly
  | Normal
  | Empty.

Definition classify (image_refs : gmap string string) (paragraph : Paragraph) : Kind :=
  match paragraph_content image_refs paragraph with
  | [] => Empty
  | content =>
      let heading_level := get_heading_level paragraph in
      if (0 <? heading_level)%Z then Heading heading_level
      else if is_code paragraph then Code
      else match content with
           | [Image _] => ImageOnly
           | _ => Normal
           end
  end.

(** Fences alternate: with [open] telling whether a fence is open before
    the list, no fence is opened while one is open, none is closed while
    none is open, and none is left open at the end. *)
Fixpoint fences_ok (open : bool) (l : list Emit) : bool :=
  match l with
  | FenceOpen :: l' => negb open && fences_ok true l'
  | FenceClose :: l' => open && fences_ok false l'
  | _ :: l' => fences_ok open l'
  | [] => negb open
  end.

Definition is_open (e : Emit) : bool :=
  match e with FenceOpen => true | _ => false end.

Definition is_close (e : Emit) : bool :=
  match e with FenceClose => true | _ => false end.

Definition is_fence (e : Emit) : bool := is_open e || is_close e.

Definition count_opens (l : list Emit) : nat := length (List.filter is_open l).
Definition count_closes (l : list Emit) : nat := length (List.filter is_close l).

(** ** Notions used in the statements *)

(** A line as the post-pass sees it: blank, or itself. *)
Definition line_token (line : string) : option string :=
  if is_blank id line then None else Some line.

Definition drop_separator (l : list (option string)) : list (option string) :=
  match l with
  | None :: l' => l'
  | _ => l
  end.

(** The collapsing the specification asks for, written from its words:
    every line that is not blank is kept, and each maximal run of blank
    lines (one line or more) leaves one separator [None]. *)
Fixpoint squeeze_blank_runs (lines : list string) : list (option string) :=
  match lines with
  | line :: rest =>
      if is_blank id line
      then None :: drop_separator (squeeze_blank_runs rest)
      else Some line :: squeeze_blank_runs rest
  | [] => []
  end.

Definition not_blank (line : string) : bool := negb (is_blank id line).

(** The font names the runs of a paragraph declare. *)
Definition declared_font_names (paragraph : Paragraph) : list string :=
  omap (fun run => font run ≫= font_name) (runs paragraph).

(** The code test as the specification words it: the style name, or at
    least one run declares a font name and every declared name is one of
    the two. *)
Definition spec_is_code (paragraph : Paragraph) : bool :=
  PyStr.startswith (PyStr.lower (style_name paragraph)) "code" ||
  (match declared_font_names paragraph with [] => false | _ :: _ => true end
   && forallb (fun n => bool_decide (n ∈ ["Consolas"; "Courier New"]))
        (declared_font_names paragraph)).

(** The relationship id a drawing refers to: the [r:embed] attribute of
    the blip of its graphic, when it has all three. *)
Definition referenced_id (element : Drawing) : option string :=
  match graphic_of element with
  | Some g =>
      match blip_embed g with
      | Some (Some rid) => Some rid
      | _ => None
      end
  | None => None
  end.

(** The drawing refers to a relationship id that is absent from the
    mapping. *)
Definition unresolved (image_refs : gmap string string) (element : Drawing) : bool :=
  match referenced_id element with
  | Some rid => bool_decide (image_refs !! rid = None)
  | None => false
  end.

(** The drawing refers to a relationship id that the mapping has. *)
Definition resolved (image_refs : gmap string string) (element : Drawing) : bool :=
  match referenced_id element with
  | Some rid => bool_decide (is_Some (image_refs !! rid))
  | None => false
  end.

(** The run with its unresolved drawings taken out. *)
Definition without_unresolved (image_refs : gmap string string) (run : Run) : Run :=
  mkRun (text run) (rPr run) (font run)
    (List.filter (fun element => negb (unresolved image_refs element)) (drawings run)).

(** ** Sample inputs *)

Definition heading9 : Paragraph :=
  mkParagraph "Heading 9" [mkRun "x" None (Some (mkFont None)) []].

Definition small_bold : Paragraph :=
  mkParagraph "Normal"
    [mkRun "Note" (Some (mkRPr (Some (Some "24")) true)) (Some (mkFont None)) []].

Definition code_par (s : string) : Paragraph :=
  mkParagraph "Code"
    [mkRun s (Some (mkRPr None false)) (Some (mkFont (Some "Consolas"))) []].

(** A paragraph whose only run is white space: it has no content. *)
Definition blank_par : Paragraph :=
  mkParagraph "Normal" [mkRun "  " None (Some (mkFont None)) []].

Definition text_par (s : string) : Paragraph :=
  mkParagraph "Normal" [mkRun s None (Some (mkFont None)) []].

Definition image_par (rid : string) : Paragraph :=
  mkParagraph "Normal"
    [mkRun "" None (Some (mkFont None))
       [mkDrawing (Some (mkGraphic (Some (Some rid)) (Some (Some "logo")))) None]].

Definition one_image : gmap string string := {[ "rId1" := "./images/d_image_1.png" ]}.

Definition captioned_image (rid : string) : Run :=
  mkRun "  see figure " None (Some (mkFont None))
    [mkDrawing None (Some (mkGraphic (Some (Some rid)) None))].

(** A run with text and two drawings: the first refers to an id the
    mapping [one_image] lacks, the second to the one it has. *)
Definition half_resolved : Run :=
  mkRun "caption" None (Some (mkFont None))
    [mkDrawing None (Some (mkGraphic (Some (Some "rId99")) None));
     mkDrawing None (Some (mkGraphic (Some (Some "rId1")) None))].

Definition mixed_fonts : Paragraph :=
  mkParagraph "Normal"
    [mkRun "x = 1" (Some (mkRPr None false)) (Some (mkFont (Some "Consolas"))) [];
     mkRun "  # note" None (Some (mkFont None)) []].

Definition image_reltype : string :=
  "http://schemas.openxmlformats.org/officeDocument/2006/relationships/image".

Definition styles_reltype : string :=
  "http://schemas.openxmlformats.org/officeDocument/2006/relationships/styles".

Definition some_bytes : list Byte.byte := [Byte.x89; Byte.x50; Byte.x4e; Byte.x47].

(** A relationship table: a style sheet, an image, an image without
    bytes, and two more images. *)
Definition sample_rels : list Rel :=
  [ mkRel "rId1" styles_reltype (Present (mkPart (Some some_bytes))) "styles.xml";
    mkRel "rId2" image_reltype (Present (mkPart (Some some_bytes))) "media/image1.png";
    mkRel "rId3" image_reltype (Present (mkPart (Some []))) "media/image2.png";
    mkRel "rId4" image_reltype (Present (mkPart (Some some_bytes))) "media/photo.JPG";
    mkRel "rId5" image_reltype (Present (mkPart (Some some_bytes))) "media/scan.tiff" ].

(** A file system on which the second image file cannot be written. *)
Definition sample_disk (path : string) (data : list Byte.byte) : IOResult :=
  if String.eqb path "out/images/d_image_2.jpg" then Raised "disk full" else Written.

Definition no_stats : ConversionStats :=
  {| total_files := 1; successful_files := []; failed_files := [];
     total_images := 0; failed_images := []; file_image_counts := ∅ |}.

Definition linked_msg : string :=
  "target_part property on _Relationship is undefined when target mode is External".

(** A relationship table whose second entry is a linked image. *)
Definition linked_rels : list Rel :=
  [ mkRel "rId1" image_reltype (Present (mkPart (Some some_bytes))) "media/image1.png";
    mkRel "rId2" image_reltype (Raising linked_msg) "http://example.org/logo.gif";
    mkRel "rId3" image_reltype (Present (mkPart (Some some_bytes))) "media/image3.png" ].

(** A file system on which every write succeeds. *)
Definition all_writable (path : string) (data : list Byte.byte) : IOResult := Written.

(** ** The rest of [convert_to_markdown], [process_directory] and [main]

    Logging is left out: the logger is written to and never read. *)

(** Exceptions, as far as the handlers tell them apart: the class, and the
    text [str(e)]. *)
Inductive ExnKind :=
  | FileNotFoundError
  | ValueError
  | OtherError.

Record Exn := mkExn {
  exn_kind : ExnKind;
  exn_msg : string
}.

Inductive Result (A : Type) :=
  | Ok (a : A)
  | Raise (e : Exn).

Arguments Ok {A} a.
Arguments Raise {A} e.

(** What [Document(doc_path)] gives the program. *)
Record Doc := mkDoc {
  doc_rels : list Rel;
  doc_paragraphs : list Paragraph
}.

(** The library and system calls of the program, each as a function of
    its arguments: [os.path.exists], [os.path.getsize], [Document],
    [Path(p).stem], [os.path.dirname], [os.path.relpath(p, start=s)],
    [os.makedirs(p, exist_ok=True)], writing an image file, writing the
    Markdown file, [open(p, 'rb').read(4)], [os.path.isfile], and
    [os.walk] as the list of its directories with their file names. *)
Record OS := mkOS {
  os_exists : string -> bool;
  os_getsize : string -> Result Z;
  os_Document : string -> Result Doc;
  os_stem : string -> string;
  os_dirname : string -> string;
  os_relpath : string -> string -> Result string;
  os_makedirs : string -> Result unit;
  os_write_image : string -> list Byte.byte -> IOResult;
  os_write_text : string -> string -> Result unit;
  os_read_header : string -> Result (list Byte.byte);
  os_isfile : string -> bool;
  os_walk : string -> list (string * list string)
}.

(** [s.endswith(suffix)] *)
Definition str_endswith (s suffix : string) : bool :=
  String.prefix (String.rev suffix) (String.rev s).

(** [file.endswith(('.doc', '.docx'))] *)
Definition is_word_file (file : string) : bool :=
  str_endswith file ".doc" || str_endswith file ".docx".

Definition add_successful_file (st : ConversionStats) (doc_path : string) : ConversionStats :=
  {| total_files := total_files st;
     successful_files := successful_files st ++ [doc_path];
     failed_files := failed_files st;
     total_images := total_images st;
     failed_images := failed_images st;
     file_image_counts := file_image_counts st |}.

Definition add_failed_file (st : ConversionStats) (e : string * string) : ConversionStats :=
  {| total_files := total_files st;
     successful_files := successful_files st;
     failed_files := failed_files st ++ [e];
     total_images := total_images st;
     failed_images := failed_images st;
     file_image_counts := file_image_counts st |}.

Definition incr_total_files (st : ConversionStats) : ConversionStats :=
  {| total_files := S (total_files st);
     successful_files := successful_files st;
     failed_files := failed_files st;
     total_images := total_images st;
     failed_images := failed_images st;
     file_image_counts := file_image_counts st |}.

(** [ConversionStats()] *)
Definition new_stats : ConversionStats :=
  {| total_files := 0; successful_files := []; failed_files := [];
     total_images := 0; failed_images := []; file_image_counts := ∅ |}.

(** What a call of [convert_to_markdown] leaves: its result, the stats
    object, the image files written, and the Markdown file written, if
    any, with its text. *)
Record Converted := mkConverted {
  conv_result : Result string;
  conv_stats : ConversionStats;
  conv_images : list (string * list Byte.byte);
  conv_markdown : option (string * string)
}.

Definition corrupted_msg (doc_path : string) : string :=
  "File appears to be corrupted or not a valid Word document: " +:+ doc_path +:+
  String "010" "Please ensure the file is a valid .docx file and not password protected.".

Definition raised (st : ConversionStats) (e : Exn) : Converted :=
  {| conv_result := Raise e; conv_stats := st; conv_images := []; conv_markdown := None |}.

(** The body of the [try] of [convert_to_markdown].  The paragraph loop
    and the post-pass raise nothing on the documents of the model, whose
    paragraphs all have a style with a name. *)
Definition convert_body (os : OS) (doc_path output_dir : string) (st : ConversionStats)
  : Converted :=
  if negb (os_exists os doc_path)
  then raised st (mkExn FileNotFoundError ("File not found: " +:+ doc_path))
  else
    match os_getsize os doc_path with
    | Raise e => raised st e
    | Ok file_size =>
        if (file_size =? 0)%Z
        then raised st (mkExn ValueError ("File is empty: " +:+ doc_path))
        else
          match os_Document os doc_path with
          | Raise e =>
              if PyStr.contains "Package not found" (exn_msg e)
              then raised st (mkExn ValueError (corrupted_msg doc_path))
              else raised st e
          | Ok doc =>
              let doc_name := os_stem os doc_path in
              match os_relpath os (os_dirname os doc_path) (os_dirname os output_dir) with
              | Raise e => raised st e
              | Ok rel_path =>
                  let target_dir := PyStr.path_join output_dir rel_path in
                  match os_makedirs os target_dir with
                  | Raise e => raised st e
                  | Ok _ =>
                      let image_dir := PyStr.path_join target_dir "images" in
                      match os_makedirs os image_dir with
                      | Raise e => raised st e
                      | Ok _ =>
                          let r := extract_images (os_write_image os) image_dir doc_name
                                     (doc_rels doc) st in
                          let cleaned_content :=
                            cleaned_content (image_refs r) (doc_paragraphs doc) in
                          let output_path :=
                            PyStr.path_join target_dir (doc_name +:+ ".md") in
                          let md_text :=
                            String.concat (String "010" EmptyString) cleaned_content in
                          match os_write_text os output_path md_text with
                          | Raise e =>
                              {| conv_result := Raise e;
                                 conv_stats := stats r;
                                 conv_images := written_files r;
                                 conv_markdown := None |}
                          | Ok _ =>
                              {| conv_result := Ok output_path;
                                 conv_stats := add_successful_file (stats r) doc_path;
                                 conv_images := written_files r;
                                 conv_markdown := Some (output_path, md_text) |}
                          end
                      end
                  end
              end
          end
    end.

(** The text the three handlers record for an exception. *)
Definition failure_text (doc_path : string) (e : Exn) : string :=
  match exn_kind e with
  | FileNotFoundError => "File not found: " +:+ doc_path
  | ValueError => exn_msg e
  | OtherError => exn_msg e
  end.

(** [convert_to_markdown]: each handler records the failure and raises
    the exception again. *)
Definition convert_to_markdown (os : OS) (doc_path output_dir : string)
  (st : ConversionStats) : Converted :=
  let c := convert_body os doc_path output_dir st in
  match conv_result c with
  | Ok _ => c
  | Raise e =>
      {| conv_result := Raise e;
         conv_stats := add_failed_file (conv_stats c) (doc_path, failure_text doc_path e);
         conv_images := conv_images c;
         conv_markdown := conv_markdown c |}
  end.

(** The state of the loops of [process_directory], with the files
    written so far. *)
Record DirState := mkDirState {
  dir_stats : ConversionStats;
  converted_files : list (string * string);
  skipped_files : list string;
  dir_images : list (string * list Byte.byte);
  dir_markdown : list (string * string)
}.

Definition zip_header : list Byte.byte := [Byte.x50; Byte.x4b; Byte.x03; Byte.x04].

(** Equality of byte strings. *)
Fixpoint bytes_eqb (a b : list Byte.byte) : bool :=
  match a, b with
  | [], [] => true
  | x :: a', y :: b' => Byte.eqb x y && bytes_eqb a' b'
  | _, _ => false
  end.

Definition not_word_msg (doc_path : string) : string :=
  "File has .docx extension but is not a valid Word document: " +:+ doc_path +:+
  String "010" "File may be corrupted or in an older .doc format.".

(** [if doc_path not in skipped_files: skipped_files.append(doc_path)] *)
Definition skip_once (skipped : list string) (doc_path : string) : list string :=
  if bool_decide (doc_path ∈ skipped) then skipped else skipped ++ [doc_path].

(** Body of the loop over the files of one directory. *)
Definition process_file (os : OS) (output_dir root : string) (st : DirState)
  (file : string) : DirState :=
  if is_word_file file then
    let stats1 := incr_total_files (dir_stats st) in
    let doc_path := PyStr.path_join root file in
    match os_read_header os doc_path with
    | Raise _ =>
        {| dir_stats := stats1;
           converted_files := converted_files st;
           skipped_files := skip_once (skipped_files st) doc_path;
           dir_images := dir_images st;
           dir_markdown := dir_markdown st |}
    | Ok header =>
        if negb (bytes_eqb header zip_header) then
          {| dir_stats := add_failed_file stats1 (doc_path, not_word_msg doc_path);
             converted_files := converted_files st;
             skipped_files := skipped_files st ++ [doc_path];
             dir_images := dir_images st;
             dir_markdown := dir_markdown st |}
        else
          let c := convert_to_markdown os doc_path output_dir stats1 in
          {| dir_stats := conv_stats c;
             converted_files :=
               match conv_result c with
               | Ok output_path => converted_files st ++ [(doc_path, output_path)]
               | Raise _ => converted_files st
               end;
             skipped_files :=
               match conv_result c with
               | Ok _ => skipped_files st
               | Raise _ => skip_once (skipped_files st) doc_path
               end;
             dir_images := dir_images st ++ conv_images c;
             dir_markdown := dir_markdown st ++ option_list (conv_markdown c) |}
    end
  else st.

Definition process_root (os : OS) (output_dir : string) (st : DirState)
  (entry : string * list string) : DirState :=
  fold_left (process_file os output_dir entry.1) entry.2 st.

(** [process_directory]: [converted_files] is what it returns. *)
Definition process_directory (os : OS) (source_dir output_dir : string)
  (st : ConversionStats) : DirState :=
  fold_left (process_root os output_dir) (os_walk os source_dir)
    {| dir_stats := st; converted_files := []; skipped_files := [];
       dir_images := []; dir_markdown := [] |}.

(** [1 if stats.failed_files or stats.failed_images else 0] *)
Definition exit_status (st : ConversionStats) : Z :=
  match failed_files st, failed_images st with
  | [], [] => 0
  | _, _ => 1
  end%Z.

(** [main], from the creation of the stats object on: the value it
    returns and the stats object at that point. *)
Definition main (os : OS) (source target : string) : Z * ConversionStats :=
  let stats := new_stats in
  match os_makedirs os target with
  | Raise _ => (1%Z, stats)
  | Ok _ =>
      if os_isfile os source then
        if is_word_file source then
          let c := convert_to_markdown os source target (incr_total_files stats) in
          match conv_result c with
          | Ok _ => (exit_status (conv_stats c), conv_stats c)
          | Raise _ => (1%Z, conv_stats c)
          end
        else (exit_status stats, stats)
      else
        let d := process_directory os source target stats in
        (exit_status (dir_stats d), dir_stats d)
  end.

(** Strings of decimal digits, and the number they denote after [acc]. *)
Fixpoint all_digits (s : string) : bool :=
  match s with
  | String c s' =>
      match PyStr.digit_of c with
      | Some _ => all_digits s'
      | None => false
      end
  | EmptyString => true
  end.

Fixpoint digits_value (acc : Z) (s : string) : Z :=
  match s with
  | String c s' => digits_value (10 * acc + default 0%Z (PyStr.digit_of c)) s'
  | EmptyString => acc
  end.

(** The paths [process_directory] builds for the files it looks at: in
    the order of the walk, the files with a Word suffix, joined to their
    directory. *)
Definition word_paths (os : OS) (source_dir : string) : list string :=
  concat ((fun entry : string * list string =>
             PyStr.path_join entry.1 <$> List.filter is_word_file entry.2)
          <$> os_walk os source_dir).

(** What becomes of one such path: its first bytes cannot be read, they
    are not those of a ZIP archive, the conversion returns the output
    path, or the conversion raises. *)
Inductive FileOutcome :=
  | Unreadable
  | NotZip
  | Converts (output_path : string)
  | Fails (e : Exn).

Definition file_outcome (os : OS) (output_dir doc_path : string) : FileOutcome :=
  match os_read_header os doc_path with
  | Raise _ => Unreadable
  | Ok header =>
      if bytes_eqb header zip_header then
        match conv_result (convert_to_markdown os doc_path output_dir new_stats) with
        | Ok output_path => Converts output_path
        | Raise e => Fails e
        end
      else NotZip
  end.

Definition converted_entry (os : OS) (output_dir doc_path : string)
  : option (string * string) :=
  match file_outcome os output_dir doc_path with
  | Converts output_path => Some (doc_path, output_path)
  | _ => None
  end.

Definition failed_entry (os : OS) (output_dir doc_path : string)
  : option (string * string) :=
  match file_outcome os output_dir doc_path with
  | NotZip => Some (doc_path, not_word_msg doc_path)
  | Fails e => Some (doc_path, failure_text doc_path e)
  | _ => None
  end.

Definition is_unreadable (os : OS) (output_dir doc_path : string) : bool :=
  match file_outcome os output_dir doc_path with
  | Unreadable => true
  | _ => false
  end.

(** A document, and a system on which it is the one file that exists:
    the second image file cannot be written, and one file of the source
    directory cannot be read. *)
Definition sample_doc : Doc :=
  mkDoc sample_rels [text_par "t"; image_par "rId2"; code_par "c"].

Definition sample_os : OS :=
  {| os_exists := fun p => String.eqb p "in/d.docx";
     os_getsize := fun _ => Ok 100%Z;
     os_Document := fun p =>
       if String.eqb p "in/d.docx" then Ok sample_doc
       else Raise (mkExn OtherError "Package not found at 'in/locked.docx'");
     os_stem := fun _ => "d";
     os_dirname := fun _ => "in";
     os_relpath := fun _ _ => Ok ".";
     os_makedirs := fun _ => Ok tt;
     os_write_image := fun p _ =>
       if String.eqb p "out/./images/d_image_2.jpg" then Raised "disk full" else Written;
     os_write_text := fun _ _ => Ok tt;
     os_read_header := fun p =>
       if String.eqb p "in/locked.docx"
       then Raise (mkExn OtherError "Permission denied") else Ok zip_header;
     os_isfile := fun _ => false;
     os_walk := fun _ => [("in", ["d.docx"; "notes.txt"; "locked.docx"])] |}.

(** The same system with a source directory in which no Word file can be
    read. *)
Definition locked_os : OS :=
  {| os_exists := os_exists sample_os;
     os_getsize := os_getsize sample_os;
     os_Document := os_Document sample_os;
     os_stem := os_stem sample_os;
     os_dirname := os_dirname sample_os;
     os_relpath := os_relpath sample_os;
     os_makedirs := os_makedirs sample_os;
     os_write_image := os_write_image sample_os;
     os_write_text := os_write_text sample_os;
     os_read_header := fun _ => Raise (mkExn OtherError "Permission denied");
     os_isfile := os_isfile sample_os;
     os_walk := fun _ => [("in", ["locked.docx"; "notes.txt"; "old.doc"])] |}.

(** * Properties *)

(** ** Heading levels *)

Lemma repeat_nat_length (n : nat) : String.length (PyStr.repeat_nat "#" n) = n.
Proof. induction n as [|n IH]; [reflexivity | simpl; f_equal; exact IH]. Qed.

Lemma bold_level_range (rp : RPr) : (0 <= bold_level rp <= 3)%Z.
Proof. unfold bold_level; destruct (rPr_b rp); lia. Qed.

Lemma heading_level_unstyled (p : Paragraph) :
  PyStr.startswith (style_name p) "Heading" = false ->
  get_heading_level p =
    if String.eqb (style_name p) "Title" then 1%Z
    else match first_rPr (runs p) with
         | Some rp =>
             match rPr_sz rp with
             | Some v =>
                 match sz_val v with
                 | Some n =>
                     if (20 <=? n / 2)%Z then 1%Z
                     else if (16 <=? n / 2)%Z then 2%Z
                     else if (14 <=? n / 2)%Z then 3%Z
                     else bold_level rp
                 | None => 0%Z
                 end
             | None => bold_level rp
             end
         | None => 0%Z
         end.
Proof. intros H. unfold get_heading_level. now rewrite H. Qed.

(** C2, as the program has it: a style name that starts with "Heading"
    gives the integer its last word denotes, whatever its size (0 when the
    word is no integer); every other paragraph gets a level from 0 to 3;
    and a heading line carries as many '#' as the level says. *)
Theorem heading_level_range (p : Paragraph) :
  (PyStr.startswith (style_name p) "Heading" = true ->
   get_heading_level p =
     default 0%Z (PyStr.int (List.last (PyStr.split_ws (style_name p)) EmptyString)))
  /\ (PyStr.startswith (style_name p) "Heading" = false ->
      (0 <= get_heading_level p <= 3)%Z)
  /\ (forall image_refs in_code_block,
        (0 < get_heading_level p)%Z ->
        paragraph_content image_refs p <> [] ->
        paragraph_step image_refs in_code_block p =
          (close_code in_code_block ++
             [Line (PyStr.repeat "#" (get_heading_level p) +:+ " " +:+
                    PyStr.join (text_items (paragraph_content image_refs p)))],
           false)
        /\ String.length (PyStr.repeat "#" (get_heading_level p))
           = Z.to_nat (get_heading_level p)).
Proof.
  split; [|split].
  - intros H. unfold get_heading_level. rewrite H.
    now destruct (PyStr.int _).
  - intros H. rewrite (heading_level_unstyled p H).
    destruct (String.eqb _ _); [lia|].
    destruct (first_rPr _) as [rp|]; [|lia].
    pose proof (bold_level_range rp).
    destruct (rPr_sz rp) as [v|]; [|lia].
    destruct (sz_val v) as [n|]; [|lia].
    repeat match goal with |- context [(?a <=? ?b)%Z] => destruct (Z.leb_spec a b) end; lia.
  - intros image_refs in_code_block Hpos Hne. split.
    + unfold paragraph_step.
      destruct (paragraph_content image_refs p) as [|c l] eqn:E; [congruence|].
      apply Z.ltb_lt in Hpos. now rewrite Hpos.
    + unfold PyStr.repeat. apply repeat_nat_length.
Qed.

Lemma heading_level_range_witness :
  PyStr.startswith (style_name heading9) "Heading" = true
  /\ get_heading_level heading9 = 9%Z
  /\ paragraph_step ∅ false heading9 = ([Line "######### x"], false).
Proof.
  pose proof (heading_level_range heading9) as (H1 & _ & H3).
  split; [reflexivity|]. split.
  - rewrite (H1 eq_refl). reflexivity.
  - destruct (H3 ∅ false) as [H _]; [reflexivity | discriminate |].
    rewrite H. reflexivity.
Defined.

(** C2 fails as stated: the built-in style "Heading 9" gives level 9, and
    the heading line gets nine '#'. *)
Lemma heading_level_exceeds_six :
  get_heading_level heading9 = 9%Z
  /\ get_heading_level heading9 <> 0%Z
  /\ ~ (1 <= get_heading_level heading9 <= 6)%Z
  /\ cleaned_content ∅ [heading9] = ["######### x"].
Proof.
  assert (H : get_heading_level heading9 = 9%Z) by reflexivity.
  rewrite H. split; [reflexivity|]. split; [lia|]. split; [lia|].
  vm_compute. reflexivity.
Qed.

(** C5, as the program has it.  For a paragraph whose style gives no
    heading and whose first run with run properties is [rp]: a declared
    size of at least 14pt decides the level alone; below 14pt the bold
    flag is consulted as it is when no size is declared; a size that is
    no integer gives level 0. *)
Theorem size_then_bold (p : Paragraph) (rp : RPr) :
  PyStr.startswith (style_name p) "Heading" = false ->
  style_name p <> "Title" ->
  first_rPr (runs p) = Some rp ->
  (forall v n, rPr_sz rp = Some v -> sz_val v = Some n ->
     ((20 <= n / 2)%Z -> get_heading_level p = 1%Z)
     /\ ((16 <= n / 2 < 20)%Z -> get_heading_level p = 2%Z)
     /\ ((14 <= n / 2 < 16)%Z -> get_heading_level p = 3%Z)
     /\ ((n / 2 < 14)%Z -> get_heading_level p = if rPr_b rp then 3%Z else 0%Z))
  /\ (forall v, rPr_sz rp = Some v -> sz_val v = None -> get_heading_level p = 0%Z)
  /\ (rPr_sz rp = None -> get_heading_level p = if rPr_b rp then 3%Z else 0%Z).
Proof.
  intros Hh Ht Hr. rewrite (heading_level_unstyled p Hh).
  apply String.eqb_neq in Ht. rewrite Ht, Hr.
  split; [|split].
  - intros v n Hv Hn. rewrite Hv, Hn. unfold bold_level.
    repeat split; intros;
      repeat match goal with |- context [(?a <=? ?b)%Z] => destruct (Z.leb_spec a b) end;
      try reflexivity; lia.
  - intros v Hv Hn. now rewrite Hv, Hn.
  - intros Hv. now rewrite Hv.
Qed.

Lemma size_then_bold_witness :
  get_heading_level small_bold = 3%Z.
Proof.
  destruct (size_then_bold small_bold (mkRPr (Some (Some "24")) true))
    as (H & _ & _); [reflexivity | discriminate | reflexivity |].
  destruct (H (Some "24") 24%Z eq_refl eq_refl) as (_ & _ & _ & H4).
  exact (H4 eq_refl).
Defined.

(** C5 fails as stated: a first formatted run declaring 12pt (24
    half-points) and bold gives level 3, not 0: the bold flag is consulted
    although a size is declared. *)
Lemma small_bold_is_heading :
  first_rPr (runs small_bold) = Some (mkRPr (Some (Some "24")) true)
  /\ sz_val (Some "24") = Some 24%Z
  /\ (24 / 2 < 14)%Z
  /\ get_heading_level small_bold = 3%Z
  /\ get_heading_level small_bold <> 0%Z.
Proof. repeat split; try reflexivity. discriminate. Qed.

(** ** The fence state machine *)

Lemma fence_not_blank_open : is_blank render FenceOpen = false.
Proof. reflexivity. Qed.

Lemma fence_not_blank_close : is_blank render FenceClose = false.
Proof. reflexivity. Qed.

(** One paragraph moves the checker from the old state to the new one. *)
Lemma paragraph_step_fences image_refs b p rest :
  fences_ok b (fst (paragraph_step image_refs b p) ++ rest)
  = fences_ok (snd (paragraph_step image_refs b p)) rest.
Proof.
  unfold paragraph_step.
  destruct (paragraph_content image_refs p) as [|c l].
  - destruct b; reflexivity.
  - destruct (0 <? get_heading_level p)%Z; [destruct b; reflexivity|].
    destruct (is_code p); [destruct b; reflexivity|].
    cbn [fst snd].
    destruct c as [t|t], l as [|c' l'];
      try destruct (PyStr.truthy _); destruct b; reflexivity.
Qed.

Lemma paragraphs_loop_fences image_refs ps : forall b rest,
  fences_ok b (fst (paragraphs_loop image_refs b ps) ++ rest)
  = fences_ok (snd (paragraphs_loop image_refs b ps)) rest.
Proof.
  induction ps as [|p ps IH]; intros b rest; [reflexivity|].
  cbn [paragraphs_loop].
  pose proof (paragraph_step_fences image_refs b p) as Hs.
  destruct (paragraph_step image_refs b p) as [out b'].
  specialize (IH b').
  destruct (paragraphs_loop image_refs b' ps) as [out' final].
  cbn [fst snd] in *. rewrite <- app_assoc, Hs. apply IH.
Qed.

Lemma md_content_eq image_refs ps :
  md_content image_refs ps
  = fst (paragraphs_loop image_refs false ps)
      ++ close_code (snd (paragraphs_loop image_refs false ps)).
Proof.
  unfold md_content. now destruct (paragraphs_loop image_refs false ps).
Qed.

Lemma md_content_fences image_refs ps :
  fences_ok false (md_content image_refs ps) = true.
Proof.
  rewrite md_content_eq, paragraphs_loop_fences.
  now destruct (snd (paragraphs_loop image_refs false ps)).
Qed.

(** The post-pass drops blank lines only, and a fence is not blank. *)
Lemma clean_up_fences l : forall last b,
  fences_ok b (clean_up render last l) = fences_ok b l.
Proof.
  induction l as [|e l IH]; intros last b; [reflexivity|].
  cbn [clean_up].
  destruct (is_blank render e) eqn:Hb; cbn [negb].
  - destruct e; try discriminate Hb;
      destruct last; cbn [negb fences_ok]; apply IH.
  - destruct e; cbn [fences_ok]; now rewrite IH.
Qed.

Lemma clean_up_render l : forall last,
  render <$> clean_up render last l = clean_up id last (render <$> l).
Proof.
  induction l as [|e l IH]; intros last; [reflexivity|].
  cbn [clean_up fmap list_fmap].
  change (is_blank id (render e)) with (is_blank render e).
  destruct (is_blank render e); cbn [negb].
  - destruct last; cbn [negb]; [apply IH|]. cbn. f_equal. apply IH.
  - cbn. f_equal. apply IH.
Qed.

Lemma clean_up_closing l : forall last,
  clean_up render last (l ++ [FenceClose; Blank])
  = clean_up render last l ++ [FenceClose; Blank].
Proof.
  induction l as [|e l IH]; intros last; [reflexivity|].
  cbn [clean_up app].
  destruct (negb (is_blank render e)); [cbn; f_equal; apply IH|].
  destruct (negb last); [cbn; f_equal; apply IH | apply IH].
Qed.

Lemma count_opens_cons e l :
  count_opens (e :: l) = (if is_open e then 1 else 0) + count_opens l.
Proof. unfold count_opens. cbn [List.filter]. now destruct (is_open e). Qed.

Lemma count_closes_cons e l :
  count_closes (e :: l) = (if is_close e then 1 else 0) + count_closes l.
Proof. unfold count_closes. cbn [List.filter]. now destruct (is_close e). Qed.

Lemma fences_ok_counts l : forall b,
  fences_ok b l = true ->
  count_opens l + (if b then 1 else 0) = count_closes l.
Proof.
  induction l as [|e l IH]; intros b H.
  - destruct b; [discriminate | reflexivity].
  - rewrite count_opens_cons, count_closes_cons.
    destruct e; cbn [fences_ok is_open is_close] in *.
    + destruct b; [discriminate|]. specialize (IH true H). cbv iota in *. lia.
    + destruct b; [|discriminate]. specialize (IH false H). cbv iota in *. lia.
    + specialize (IH b H). cbv iota. lia.
    + specialize (IH b H). cbv iota. lia.
Qed.

(** With a fence open, the first fence that follows is a closing one. *)
Lemma fences_ok_open_closes l :
  fences_ok true l = true ->
  exists j, l !! j = Some FenceClose
            /\ forall k e, k < j -> l !! k = Some e -> is_fence e = false.
Proof.
  induction l as [|e l IH]; intros H; [discriminate|].
  destruct e; cbn in H.
  - discriminate.
  - exists 0. split; [reflexivity | intros k e Hk; lia].
  - destruct (IH H) as (j & Hj & Hb). exists (S j). split; [exact Hj|].
    intros [|k] e Hk He; [now injection He as <- | apply (Hb k e); [lia | exact He]].
  - destruct (IH H) as (j & Hj & Hb). exists (S j). split; [exact Hj|].
    intros [|k] e Hk He; [now injection He as <- | apply (Hb k e); [lia | exact He]].
Qed.

Lemma fences_ok_closed l : forall b i,
  fences_ok b l = true -> l !! i = Some FenceOpen ->
  exists j, i < j /\ l !! j = Some FenceClose
            /\ forall k e, i < k < j -> l !! k = Some e -> is_fence e = false.
Proof.
  induction l as [|e l IH]; intros b i H Hi; [discriminate|].
  destruct i as [|i].
  - cbn in Hi. injection Hi as ->. cbn in H.
    apply andb_prop in H as [_ H].
    destruct (fences_ok_open_closes l H) as (j & Hj & Hb).
    exists (S j). split; [lia|]. split; [exact Hj|].
    intros [|k] e' Hk He; [lia | apply (Hb k e'); [lia | exact He]].
  - cbn in Hi.
    assert (exists b', fences_ok b' l = true) as [b' H'].
    { destruct e; cbn in H;
        try (apply andb_prop in H as [_ H]); eauto. }
    destruct (IH b' i H' Hi) as (j & Hlt & Hj & Hb).
    exists (S j). split; [lia|]. split; [exact Hj|].
    intros [|k] e' Hk He; [lia | apply (Hb k e'); [lia | exact He]].
Qed.

(** C1: in the output of the post-pass, tagged by the appending statement
    (and rendering to [cleaned_content]), fences alternate starting and
    ending closed, so none nests; opening and closing fences are equally
    many; every opening fence has a closing fence after it, with no other
    fence in between; and a block still open when the paragraphs end gets
    its closing fence at the end. *)
Theorem fences_balanced (image_refs : gmap string string) (paragraphs : list Paragraph) :
  render <$> cleaned_emits image_refs paragraphs = cleaned_content image_refs paragraphs
  /\ fences_ok false (cleaned_emits image_refs paragraphs) = true
  /\ count_opens (cleaned_emits image_refs paragraphs)
     = count_closes (cleaned_emits image_refs paragraphs)
  /\ (forall i, cleaned_emits image_refs paragraphs !! i = Some FenceOpen ->
        exists j, i < j
          /\ cleaned_emits image_refs paragraphs !! j = Some FenceClose
          /\ forall k e, i < k < j ->
                cleaned_emits image_refs paragraphs !! k = Some e -> is_fence e = false)
  /\ (snd (paragraphs_loop image_refs false paragraphs) = true ->
        md_content image_refs paragraphs
          = fst (paragraphs_loop image_refs false paragraphs) ++ [FenceClose; Blank]
        /\ exists pre, cleaned_emits image_refs paragraphs = pre ++ [FenceClose; Blank]).
Proof.
  assert (Hok : fences_ok false (cleaned_emits image_refs paragraphs) = true).
  { unfold cleaned_emits. rewrite clean_up_fences. apply md_content_fences. }
  split; [apply clean_up_render|].
  split; [exact Hok|].
  split; [rewrite <- (fences_ok_counts _ _ Hok); apply eq_sym, Nat.add_0_r|].
  split; [intros i; apply (fences_ok_closed _ false i Hok)|].
  intros Hopen.
  assert (Hmd : md_content image_refs paragraphs
                = fst (paragraphs_loop image_refs false paragraphs) ++ [FenceClose; Blank]).
  { rewrite md_content_eq, Hopen. reflexivity. }
  split; [exact Hmd|].
  unfold cleaned_emits. rewrite Hmd, clean_up_closing. eauto.
Qed.

Lemma fences_balanced_witness :
  cleaned_content ∅ [text_par "t"; code_par "a"] = ["t"; ""; "```"; "a"; "```"; ""]
  /\ exists pre, cleaned_emits ∅ [text_par "t"; code_par "a"] = pre ++ [FenceClose; Blank].
Proof.
  split; [vm_compute; reflexivity|].
  destruct (fences_balanced ∅ [text_par "t"; code_par "a"]) as (_ & _ & _ & _ & H).
  destruct (H eq_refl) as [_ H']. exact H'.
Defined.

(** ** Leaving a code block *)

Lemma classify_step image_refs b p :
  paragraph_step image_refs b p =
    match classify image_refs p with
    | Heading level =>
        (close_code b ++ [Line (heading_line level (paragraph_content image_refs p))], false)
    | Code =>
        ((if b then [] else [Blank; FenceOpen])
           ++ [Line (code_line (paragraph_content image_refs p))], true)
    | ImageOnly =>
        (close_code b ++
           [Blank; Line (PyStr.join (content_of <$> paragraph_content image_refs p)); Blank],
         false)
    | Normal =>
        (close_code b ++
           (let combined_content :=
              PyStr.join (content_of <$> paragraph_content image_refs p) in
            if PyStr.truthy (PyStr.strip combined_content)
            then [Line combined_content] else []),
         false)
    | Empty => (if b then [] else [Blank], b)
    end.
Proof.
  unfold paragraph_step, classify.
  destruct (paragraph_content image_refs p) as [|c l]; [reflexivity|].
  destruct (0 <? get_heading_level p)%Z; [reflexivity|].
  destruct (is_code p); [reflexivity|].
  destruct c as [t|t], l as [|c' l']; reflexivity.
Qed.

(** C3, as the program has it.  With a code block open: a paragraph that
    has content and is not code (a heading, an image alone, normal text)
    gets a closing fence and a blank line before anything else, and the
    block is closed; a code paragraph adds its line and leaves the block
    open; a paragraph without content appends nothing and leaves the block
    open; at the end of the document an open block is closed by a closing
    fence and a blank line. *)
Theorem leaving_code_closes_fence (image_refs : gmap string string) (p : Paragraph) :
  (classify image_refs p <> Code -> classify image_refs p <> Empty ->
     exists rest, paragraph_step image_refs true p = (FenceClose :: Blank :: rest, false))
  /\ (classify image_refs p = Code ->
        paragraph_step image_refs true p
          = ([Line (code_line (paragraph_content image_refs p))], true))
  /\ (classify image_refs p = Empty ->
        paragraph_step image_refs true p = ([], true))
  /\ (forall paragraphs,
        snd (paragraphs_loop image_refs false paragraphs) = true ->
        md_content image_refs paragraphs
          = fst (paragraphs_loop image_refs false paragraphs) ++ [FenceClose; Blank]).
Proof.
  rewrite classify_step.
  split; [|split; [|split]].
  - intros Hc He. destruct (classify image_refs p); try congruence; cbn; eauto.
  - now intros ->.
  - now intros ->.
  - intros paragraphs H. rewrite md_content_eq, H. reflexivity.
Qed.

Lemma leaving_code_closes_fence_witness :
  paragraph_step ∅ true (text_par "t") = ([FenceClose; Blank; Line "t"], false)
  /\ paragraph_step ∅ true blank_par = ([], true).
Proof.
  pose proof (leaving_code_closes_fence ∅ (text_par "t")) as (H1 & _).
  pose proof (leaving_code_closes_fence ∅ blank_par) as (_ & _ & H3 & _).
  split.
  - destruct H1 as [rest Hrest]; [discriminate | discriminate |].
    rewrite Hrest. vm_compute in Hrest. congruence.
  - apply H3. reflexivity.
Defined.

(** C3 fails as stated: a paragraph without content, met while a code
    block is open, is not code, yet no closing fence is appended and the
    block stays open; the code line after it lands in the same block. *)
Lemma empty_paragraph_keeps_fence_open :
  classify ∅ blank_par = Empty
  /\ classify ∅ blank_par <> Code
  /\ paragraph_step ∅ true blank_par = ([], true)
  /\ (forall rest, paragraph_step ∅ true blank_par <> (FenceClose :: Blank :: rest, false))
  /\ cleaned_content ∅ [code_par "a"; blank_par; code_par "b"]
     = [""; "```"; "a"; "b"; "```"; ""].
Proof.
  split; [reflexivity|]. split; [discriminate|]. split; [reflexivity|].
  split; [intros rest; discriminate|]. vm_compute. reflexivity.
Qed.

(** ** The blank-line post-pass *)

Lemma clean_up_head_not_blank (l : list string) x :
  clean_up id true l !! 0 = Some x -> is_blank id x = false.
Proof.
  induction l as [|y l IH]; [discriminate|].
  cbn [clean_up]. destruct (is_blank id y) eqn:Hy; cbn [negb].
  - exact IH.
  - cbn. intros [= <-]. exact Hy.
Qed.

Lemma clean_up_no_adjacent (l : list string) : forall last i a b,
  clean_up id last l !! i = Some a ->
  clean_up id last l !! S i = Some b ->
  ~ (is_blank id a = true /\ is_blank id b = true).
Proof.
  induction l as [|x l IH]; intros last i a b Ha Hb [Hba Hbb]; [discriminate|].
  cbn [clean_up] in Ha, Hb.
  destruct (is_blank id x) eqn:Hx; cbn [negb] in Ha, Hb.
  - destruct last; cbn [negb] in Ha, Hb.
    + exact (IH true i a b Ha Hb (conj Hba Hbb)).
    + destruct i as [|i]; cbn in Ha, Hb.
      * apply clean_up_head_not_blank in Hb. congruence.
      * exact (IH true i a b Ha Hb (conj Hba Hbb)).
  - destruct i as [|i]; cbn in Ha, Hb.
    + congruence.
    + exact (IH false i a b Ha Hb (conj Hba Hbb)).
Qed.

Lemma clean_up_keeps_lines (l : list string) : forall last,
  List.filter not_blank (clean_up id last l) = List.filter not_blank l.
Proof.
  induction l as [|x l IH]; intros last; [reflexivity|].
  cbn [clean_up List.filter]. unfold not_blank at 2.
  destruct (is_blank id x) eqn:Hx; cbn [negb].
  - destruct last; cbn [negb]; [apply IH|].
    cbn [List.filter]. unfold not_blank at 1. rewrite Hx. apply IH.
  - cbn [List.filter]. unfold not_blank at 1. rewrite Hx. cbn [negb].
    f_equal. apply IH.
Qed.

Lemma clean_up_squeezes (l : list string) : forall last,
  line_token <$> clean_up id last l
  = if last then drop_separator (squeeze_blank_runs l) else squeeze_blank_runs l.
Proof.
  induction l as [|x l IH]; intros last; [now destruct last|].
  cbn [clean_up squeeze_blank_runs].
  destruct (is_blank id x) eqn:Hx; cbn [negb].
  - destruct last; cbn [negb drop_separator].
    + apply (IH true).
    + cbn [fmap list_fmap]. unfold line_token at 1. rewrite Hx.
      f_equal. apply (IH true).
  - cbn [fmap list_fmap]. unfold line_token at 1. rewrite Hx.
    rewrite (IH false). now destruct last.
Qed.

(** C7: in [cleaned_content] no two neighbouring lines are both blank;
    the lines that are not blank are those of [md_content], in the same
    order and unchanged; and every run of blank lines of [md_content] is
    there as exactly one blank line. *)
Theorem blank_lines_collapsed (image_refs : gmap string string) (paragraphs : list Paragraph) :
  (forall i a b,
     cleaned_content image_refs paragraphs !! i = Some a ->
     cleaned_content image_refs paragraphs !! S i = Some b ->
     ~ (is_blank id a = true /\ is_blank id b = true))
  /\ List.filter not_blank (cleaned_content image_refs paragraphs)
     = List.filter not_blank (md_lines image_refs paragraphs)
  /\ line_token <$> cleaned_content image_refs paragraphs
     = squeeze_blank_runs (md_lines image_refs paragraphs).
Proof.
  unfold cleaned_content. split; [|split].
  - apply clean_up_no_adjacent.
  - apply clean_up_keeps_lines.
  - apply (clean_up_squeezes _ false).
Qed.

Lemma blank_lines_collapsed_witness :
  md_lines one_image [text_par "t"; blank_par; image_par "rId1"; blank_par; code_par "c"]
  = ["t"; ""; ""; "![logo](./images/d_image_1.png)"; ""; ""; ""; "```"; "c"; "```"; ""]
  /\ cleaned_content one_image
       [text_par "t"; blank_par; image_par "rId1"; blank_par; code_par "c"]
     = ["t"; ""; "![logo](./images/d_image_1.png)"; ""; "```"; "c"; "```"; ""]
  /\ ~ (is_blank id "" = true /\ is_blank id "![logo](./images/d_image_1.png)" = true).
Proof.
  split; [vm_compute; reflexivity|]. split; [vm_compute; reflexivity|].
  destruct (blank_lines_collapsed one_image
              [text_par "t"; blank_par; image_par "rId1"; blank_par; code_par "c"])
    as (H & _ & _).
  apply (H 1); vm_compute; reflexivity.
Defined.

(** ** Run linearization *)

Lemma drawing_item_Some image_refs d g rid path :
  graphic_of d = Some g -> blip_embed g = Some (Some rid) ->
  image_refs !! rid = Some path ->
  drawing_item image_refs d = Some (Image (image_markdown (alt_text_of g) path)).
Proof.
  unfold drawing_item, graphic_of. intros -> -> H. cbn. now rewrite H.
Qed.

Lemma drawing_item_None image_refs d :
  (forall g rid, graphic_of d = Some g -> blip_embed g = Some (Some rid) ->
                 image_refs !! rid = None) ->
  drawing_item image_refs d = None.
Proof.
  unfold drawing_item, graphic_of. intros H.
  destruct (match inline d with Some g => Some g | None => anchor d end) as [g|];
    [|reflexivity].
  destruct (blip_embed g) as [[rid|]|] eqn:Hb; try reflexivity.
  cbn. now rewrite (H g rid eq_refl Hb).
Qed.

Lemma drawing_item_is_image image_refs d item :
  drawing_item image_refs d = Some item -> is_image item = true.
Proof.
  unfold drawing_item. intros H.
  repeat case_match; simplify_eq; reflexivity.
Qed.

Lemma omap_none {A B} (f : A -> option B) (l : list A) :
  Forall (fun x => f x = None) l -> omap f l = [].
Proof.
  induction 1 as [|x l Hx _ IH]; [reflexivity|].
  cbn. now rewrite Hx.
Qed.

Lemma omap_some {A B} (f : A -> option B) (l : list A) :
  Exists (fun x => is_Some (f x)) l -> omap f l <> [].
Proof.
  induction 1 as [x l [y Hy]|x l _ IH]; cbn.
  - now rewrite Hy.
  - destruct (f x); [discriminate | exact IH].
Qed.

Lemma omap_images image_refs (l : list Drawing) :
  Forall (fun item => is_image item = true) (omap (drawing_item image_refs) l).
Proof.
  induction l as [|d l IH]; cbn; [constructor|].
  destruct (drawing_item image_refs d) eqn:E; [|exact IH].
  constructor; [eapply drawing_item_is_image, E | exact IH].
Qed.

(** A run none of whose drawings yields an image: its text if that is
    not blank, else nothing. *)
Lemma run_content_no_image image_refs run :
  Forall (fun d => drawing_item image_refs d = None) (drawings run) ->
  run_content image_refs run
  = if PyStr.truthy (PyStr.strip (text run)) then [Text (text run)] else [].
Proof.
  intros H. unfold run_content. rewrite (omap_none _ _ H). cbn.
  now rewrite andb_true_r.
Qed.

Lemma run_content_image image_refs run :
  omap (drawing_item image_refs) (drawings run) <> [] ->
  run_content image_refs run = omap (drawing_item image_refs) (drawings run).
Proof.
  intros H. unfold run_content.
  destruct (omap (drawing_item image_refs) (drawings run)); [congruence|].
  cbn [negb]. rewrite andb_false_r. apply app_nil_r.
Qed.

Lemma paragraph_content_app image_refs s rs1 rs2 :
  paragraph_content image_refs (mkParagraph s (rs1 ++ rs2))
  = paragraph_content image_refs (mkParagraph s rs1)
      ++ paragraph_content image_refs (mkParagraph s rs2).
Proof.
  unfold paragraph_content. cbn [runs].
  now rewrite fmap_app, concat_app.
Qed.

(** C8: the content of a paragraph is the content of its runs, in run
    order.  A run with a drawing that resolves to an image of the mapping
    gives the image items of its drawings (one item for one drawing) and
    no text item, whatever its text; a run without such a drawing gives
    one text item holding its text unchanged when the text is not blank
    after trimming, and nothing otherwise. *)
Theorem run_linearization (image_refs : gmap string string) :
  (forall s run rs,
     paragraph_content image_refs (mkParagraph s (run :: rs))
     = run_content image_refs run ++ paragraph_content image_refs (mkParagraph s rs))
  /\ (forall s, paragraph_content image_refs (mkParagraph s []) = [])
  /\ (forall run d g rid path,
        drawings run = [d] -> graphic_of d = Some g ->
        blip_embed g = Some (Some rid) -> image_refs !! rid = Some path ->
        run_content image_refs run = [Image (image_markdown (alt_text_of g) path)])
  /\ (forall run,
        Exists (fun d => is_Some (drawing_item image_refs d)) (drawings run) ->
        run_content image_refs run = omap (drawing_item image_refs) (drawings run)
        /\ run_content image_refs run <> []
        /\ Forall (fun item => is_image item = true) (run_content image_refs run))
  /\ (forall run,
        Forall (fun d => drawing_item image_refs d = None) (drawings run) ->
        (PyStr.truthy (PyStr.strip (text run)) = true ->
           run_content image_refs run = [Text (text run)])
        /\ (PyStr.truthy (PyStr.strip (text run)) = false ->
              run_content image_refs run = [])).
Proof.
  split; [reflexivity|]. split; [reflexivity|]. split; [|split].
  - intros run d g rid path Hd Hg Hb Hp.
    rewrite run_content_image; rewrite Hd; cbn;
      rewrite (drawing_item_Some _ _ _ _ _ Hg Hb Hp); [reflexivity | discriminate].
  - intros run H. pose proof (omap_some _ _ H) as Hne.
    rewrite (run_content_image _ _ Hne).
    split; [reflexivity|]. split; [exact Hne | apply omap_images].
  - intros run H. rewrite (run_content_no_image _ _ H).
    split; intros ->; reflexivity.
Qed.

Lemma run_linearization_witness :
  run_content one_image (captioned_image "rId1")
  = [Image "![Image](./images/d_image_1.png)"]
  /\ run_content one_image (mkRun "  raw text " None (Some (mkFont None)) [])
     = [Text "  raw text "].
Proof.
  destruct (run_linearization one_image) as (_ & _ & H3 & _ & H5).
  split.
  - apply (H3 (captioned_image "rId1")
               (mkDrawing None (Some (mkGraphic (Some (Some "rId1")) None)))
               (mkGraphic (Some (Some "rId1")) None) "rId1" "./images/d_image_1.png");
      reflexivity.
  - destruct (H5 (mkRun "  raw text " None (Some (mkFont None)) [])) as [H _];
      [constructor|]. apply H. reflexivity.
Defined.

Lemma unresolved_item image_refs d :
  unresolved image_refs d = true -> drawing_item image_refs d = None.
Proof.
  unfold unresolved, referenced_id, drawing_item.
  destruct (graphic_of d) as [g|]; [|discriminate].
  destruct (blip_embed g) as [[rid|]|]; try discriminate.
  intros H. apply bool_decide_eq_true in H. cbn. now rewrite H.
Qed.

Lemma resolved_item image_refs d :
  resolved image_refs d = true <-> is_Some (drawing_item image_refs d).
Proof.
  unfold resolved, referenced_id, drawing_item.
  destruct (graphic_of d) as [g|]; [|split; [discriminate | intros [? [=]]]].
  destruct (blip_embed g) as [[rid|]|]; cbn;
    try (split; [discriminate | intros [? [=]]]).
  rewrite bool_decide_eq_true.
  destruct (image_refs !! rid) as [path|]; split; eauto; intros [? [=]].
Qed.

Lemma omap_without_unresolved image_refs (l : list Drawing) :
  omap (drawing_item image_refs)
    (List.filter (fun d => negb (unresolved image_refs d)) l)
  = omap (drawing_item image_refs) l.
Proof.
  induction l as [|d l IH]; [reflexivity|]. cbn [List.filter].
  destruct (unresolved image_refs d) eqn:E; cbn [negb]; cbn.
  - rewrite (unresolved_item _ _ E). exact IH.
  - destruct (drawing_item image_refs d); [f_equal|]; exact IH.
Qed.

Lemma existsb_resolved image_refs (l : list Drawing) :
  existsb (resolved image_refs) l = false ->
  Forall (fun d => drawing_item image_refs d = None) l.
Proof.
  induction l as [|d l IH]; [constructor|]. cbn [existsb].
  intros H. apply orb_false_iff in H as [Hd Hl]. constructor; [|now apply IH].
  destruct (drawing_item image_refs d) eqn:E; [|reflexivity].
  assert (Hr : resolved image_refs d = true) by (apply resolved_item; rewrite E; eauto).
  congruence.
Qed.

Lemma existsb_resolved_some image_refs (l : list Drawing) :
  existsb (resolved image_refs) l = true ->
  Exists (fun d => is_Some (drawing_item image_refs d)) l.
Proof.
  intros H. apply existsb_exists in H as (d & Hin & Hd).
  apply Exists_exists. exists d. split; [now apply list_elem_of_In|].
  now apply resolved_item.
Qed.

(** C9, as the program has it.  A drawing that refers to a relationship
    id missing from the mapping gives no item, neither an image nor
    anything in its place: the run gives what it would give without such
    drawings.  What becomes of the text depends on the other drawings of
    the run.  When none of them refers to an id the mapping has, the run
    gives its text as one text item if the text is not blank after
    trimming, and nothing at all otherwise.  When one of them does, the
    run gives the image items of its drawings and no text item: the text
    is dropped together with the unresolved drawing. *)
Theorem unresolved_drawing_silent (image_refs : gmap string string) (run : Run) :
  (forall d, d ∈ drawings run -> unresolved image_refs d = true ->
             drawing_item image_refs d = None)
  /\ run_content image_refs run
     = run_content image_refs (without_unresolved image_refs run)
  /\ (existsb (resolved image_refs) (drawings run) = false ->
        run_content image_refs run
        = (if PyStr.truthy (PyStr.strip (text run)) then [Text (text run)] else [])
        /\ Forall (fun item => is_image item = false) (run_content image_refs run))
  /\ (existsb (resolved image_refs) (drawings run) = true ->
        run_content image_refs run
        = omap (drawing_item image_refs) (drawings run)
        /\ run_content image_refs run <> []
        /\ Forall (fun item => is_image item = true) (run_content image_refs run)).
Proof.
  split; [intros d _; apply unresolved_item|]. split; [|split].
  - unfold run_content, without_unresolved. cbn [drawings text].
    now rewrite omap_without_unresolved.
  - intros H. rewrite (run_content_no_image _ _ (existsb_resolved _ _ H)).
    split; [reflexivity|]. destruct (PyStr.truthy _); repeat constructor.
  - intros H. pose proof (omap_some _ _ (existsb_resolved_some _ _ H)) as Hne.
    rewrite (run_content_image _ _ Hne).
    split; [reflexivity|]. split; [exact Hne | apply omap_images].
Qed.

Lemma unresolved_drawing_silent_witness :
  run_content one_image (captioned_image "rId2") = [Text "  see figure "]
  /\ run_content one_image half_resolved
     = run_content one_image (without_unresolved one_image half_resolved)
  /\ run_content one_image half_resolved = [Image "![Image](./images/d_image_1.png)"].
Proof.
  split; [|split].
  - destruct (unresolved_drawing_silent one_image (captioned_image "rId2"))
      as (_ & _ & H & _).
    destruct H as [H _]; [reflexivity | exact H].
  - destruct (unresolved_drawing_silent one_image half_resolved) as (_ & H & _).
    exact H.
  - destruct (unresolved_drawing_silent one_image half_resolved) as (_ & _ & _ & H).
    destruct H as [H _]; [reflexivity | exact H].
Defined.

(** C9 fails as stated: the run [half_resolved] contains a drawing whose
    relationship id is absent from the mapping and its text is not blank
    after trimming, yet the text is not emitted, because another drawing
    of the same run resolves. *)
Lemma unresolved_drawing_text_dropped :
  Exists (fun d => unresolved one_image d = true) (drawings half_resolved)
  /\ PyStr.truthy (PyStr.strip (text half_resolved)) = true
  /\ run_content one_image half_resolved = [Image "![Image](./images/d_image_1.png)"]
  /\ Text (text half_resolved) ∉ run_content one_image half_resolved.
Proof.
  assert (H : run_content one_image half_resolved
              = [Image "![Image](./images/d_image_1.png)"]) by reflexivity.
  split; [left; reflexivity|]. split; [reflexivity|]. split; [exact H|].
  rewrite H. intros Hin. apply list_elem_of_singleton in Hin. discriminate.
Qed.

(** ** Code paragraphs *)

Lemma monospace_spec (name : option string) :
  monospace name = true <-> name = Some "Consolas" \/ name = Some "Courier New".
Proof.
  destruct name as [n|]; cbn.
  - rewrite bool_decide_eq_true, !elem_of_cons, elem_of_nil.
    split; [intros [->|[->|[]]]; auto | intros [[= ->]|[= ->]]; auto].
  - split; [discriminate | intros [|]; discriminate].
Qed.

Lemma tested_fonts_spec (rs : list Run) :
  forallb monospace (omap (fun run => font_name <$> font run) rs) = true
  <-> forall run f, run ∈ rs -> font run = Some f -> monospace (font_name f) = true.
Proof.
  induction rs as [|r rs IH]; cbn.
  - split; [intros _ run f Hin; inversion Hin | reflexivity].
  - destruct (font r) as [f|] eqn:Hf; cbn.
    + rewrite andb_true_iff, IH. split.
      * intros [H1 H2] run f' Hin Hf'. apply elem_of_cons in Hin as [->|Hin].
        -- congruence.
        -- eauto.
      * intros H. split; [apply (H r f); [left | exact Hf]|].
        intros run f' Hin. apply H. now right.
    + rewrite IH. split.
      * intros H run f' Hin Hf'. apply elem_of_cons in Hin as [->|Hin].
        -- congruence.
        -- eauto.
      * intros H run f' Hin. apply H. now right.
Qed.

Lemma is_code_spec (p : Paragraph) :
  is_code p = true
  <-> PyStr.startswith (PyStr.lower (style_name p)) "code" = true
      \/ forall run f, run ∈ runs p -> font run = Some f ->
           font_name f = Some "Consolas" \/ font_name f = Some "Courier New".
Proof.
  unfold is_code, tested_font_names.
  rewrite orb_true_iff, tested_fonts_spec.
  split; (intros [H|H]; [left; exact H | right]);
    intros run f Hin Hf; apply monospace_spec; eauto.
Qed.

Lemma classify_code image_refs p :
  paragraph_content image_refs p <> [] -> (get_heading_level p <= 0)%Z ->
  (classify image_refs p = Code <-> is_code p = true).
Proof.
  intros Hne Hl. unfold classify.
  destruct (paragraph_content image_refs p) as [|c l]; [congruence|].
  apply Z.ltb_ge in Hl. rewrite Hl.
  destruct (is_code p); [tauto|].
  split; [|discriminate]. destruct c, l; discriminate.
Qed.

(** C4, as the program has it.  A paragraph with content that is no
    heading is classified Code exactly when its style name, lower-cased,
    starts with "code", or every run whose font object is true (with
    python-docx: every run) has the font name "Consolas" or "Courier New".
    A run that declares no font name is not left out of the test but
    fails it; so a paragraph none of whose runs declares a font name is
    not code by that branch. *)
Theorem classified_code_iff (image_refs : gmap string string) (p : Paragraph) :
  paragraph_content image_refs p <> [] ->
  (get_heading_level p <= 0)%Z ->
  (classify image_refs p = Code
   <-> PyStr.startswith (PyStr.lower (style_name p)) "code" = true
       \/ forall run f, run ∈ runs p -> font run = Some f ->
            font_name f = Some "Consolas" \/ font_name f = Some "Courier New")
  /\ (PyStr.startswith (PyStr.lower (style_name p)) "code" = false ->
      (exists run f, run ∈ runs p /\ font run = Some f /\ font_name f = None) ->
      classify image_refs p <> Code).
Proof.
  intros Hne Hl. rewrite (classify_code _ _ Hne Hl), is_code_spec.
  split; [reflexivity|].
  intros Hs (run & f & Hin & Hf & Hn) [H|H]; [congruence|].
  destruct (H run f Hin Hf); congruence.
Qed.

Lemma classified_code_iff_witness :
  classify ∅ (code_par "a") = Code /\ classify ∅ mixed_fonts <> Code.
Proof.
  split.
  - destruct (classified_code_iff ∅ (code_par "a")) as [H _];
      [discriminate | vm_compute; discriminate |].
    apply H. left. reflexivity.
  - destruct (classified_code_iff ∅ mixed_fonts) as [_ H];
      [discriminate | vm_compute; discriminate |].
    apply H; [reflexivity|].
    exists (mkRun "  # note" None (Some (mkFont None)) []), (mkFont None).
    split; [|split; reflexivity]. apply elem_of_cons. right. apply elem_of_cons. now left.
Defined.

(** C4 fails as stated: of two runs, one declares "Consolas" and the other
    no font name.  Every run that declares a font name declares
    "Consolas", so leaving the other run out would make the paragraph
    code; the program tests that run too and classifies it Normal. *)
Lemma unnamed_font_run_not_ignored :
  get_heading_level mixed_fonts = 0%Z
  /\ declared_font_names mixed_fonts = ["Consolas"]
  /\ spec_is_code mixed_fonts = true
  /\ is_code mixed_fonts = false
  /\ classify ∅ mixed_fonts = Normal
  /\ cleaned_content ∅ [mixed_fonts] = ["x = 1  # note"].
Proof. repeat split; vm_compute; reflexivity. Qed.

(** ** Image sequence numbers *)

Lemma numbered_fst {A} (l : list A) : forall n, (numbered n l).*1 = seq n (length l).
Proof. induction l as [|x l IH]; intros n; cbn; [reflexivity | now rewrite IH]. Qed.

Lemma numbered_snd {A} (l : list A) : forall n, (numbered n l).*2 = l.
Proof. induction l as [|x l IH]; intros n; cbn; [reflexivity | now rewrite IH]. Qed.

Lemma numbered_length {A} (l : list A) n : length (numbered n l) = length l.
Proof. now rewrite <- (length_fmap fst), numbered_fst, length_seq. Qed.

Lemma insert_all_lookup es : forall (m : gmap string string) k v,
  insert_all m es !! k = Some v -> (k, v) ∈ es \/ m !! k = Some v.
Proof.
  induction es as [|[k' v'] es IH]; intros m k v H; [now right|].
  cbn in H. apply IH in H as [H|H].
  - left. now right.
  - destruct (decide (k' = k)) as [->|Hne].
    + rewrite lookup_insert_eq in H. injection H as ->. left. now left.
    + rewrite lookup_insert_ne in H by exact Hne. now right.
Qed.



Lemma fold_failed_images l : forall s,
  failed_images (fold_left add_failed_image l s) = failed_images s ++ l
  /\ total_images (fold_left add_failed_image l s) = total_images s
  /\ file_image_counts (fold_left add_failed_image l s) = file_image_counts s.
Proof.
  induction l as [|e l IH]; intros s; cbn.
  - now rewrite app_nil_r.
  - destruct (IH (add_failed_image s e)) as (-> & -> & ->). cbn.
    now rewrite <- app_assoc.
Qed.

Lemma scanned_rId_sublist (f : Rel -> bool) rels :
  (rId <$> List.filter f (scanned rels)) `sublist_of` (rId <$> rels).
Proof.
  induction rels as [|rel rels IH]; cbn; [constructor|].
  destruct (guard_raises rel); cbn; [apply sublist_nil_l|].
  destruct (f rel); cbn; now constructor.
Qed.


Lemma scanned_length rels : length (scanned rels) <= length rels.
Proof.
  induction rels as [|x rels IH]; cbn; [lia|].
  destruct (guard_raises x); cbn; lia.
Qed.

Lemma scanned_all rels : scan_error rels = None -> scanned rels = rels.
Proof.
  induction rels as [|x rels IH]; cbn; [reflexivity|].
  destruct (guard_raises x); [discriminate|]. intros H. now rewrite IH.
Qed.

(** The loop stops early on a strictly shorter list. *)
Lemma scanned_short rels msg :
  scan_error rels = Some msg -> length (scanned rels) < length rels.
Proof.
  induction rels as [|x rels IH]; cbn; [discriminate|].
  destruct (guard_raises x); cbn; [lia|]. intros H. apply IH in H. lia.
Qed.

Lemma attempted_guard rel : attempted rel = true -> guard_raises rel = None.
Proof.
  unfold attempted, payload, target_part, guard_raises.
  destruct (PyStr.contains "image" (reltype rel)); [|reflexivity].
  destruct (rel_target_part rel); [reflexivity | discriminate | reflexivity].
Qed.

Section ExtractorProperties.

Variable write_file : string -> list Byte.byte -> IOResult.
Variables image_dir doc_name : string.

Lemma extract_rel_raises st rel msg :
  guard_raises rel = Some msg ->
  extract_rel write_file image_dir doc_name st rel = Stop msg.
Proof.
  unfold guard_raises, extract_rel.
  destruct (PyStr.contains "image" (reltype rel)); [|discriminate].
  destruct (rel_target_part rel); try discriminate. now intros [= ->].
Qed.

Lemma extract_rel_skipped st rel :
  guard_raises rel = None -> attempted rel = false ->
  extract_rel write_file image_dir doc_name st rel = Next st.
Proof.
  unfold guard_raises, attempted, payload, target_part, extract_rel.
  destruct (PyStr.contains "image" (reltype rel)); [|reflexivity].
  destruct (rel_target_part rel) as [|msg|part]; [reflexivity | discriminate |].
  intros _. cbn.
  destruct (blob part) as [[|x d]|]; [reflexivity | discriminate | reflexivity].
Qed.

Lemma extract_rel_attempted st rel :
  attempted rel = true ->
  extract_rel write_file image_dir doc_name st rel =
    let a := (S (file_image_count st), rel) in
    match attempt_result write_file image_dir doc_name a with
    | Written =>
        Next
        {| image_refs :=
             <[rId rel := "./images/" +:+ image_filename doc_name a.1 rel]> (image_refs st);
           file_image_count := a.1;
           stats := stats st;
           written_files :=
             written_files st ++ [(attempt_path image_dir doc_name a, payload rel)] |}
    | Raised e =>
        Next
        {| image_refs := image_refs st;
           file_image_count := a.1;
           stats := add_failed_image (stats st) (doc_name, image_error doc_name a.1 e);
           written_files := written_files st |}
    end.
Proof.
  unfold attempted, extract_rel, attempt_result, attempt_path, payload, target_part.
  cbn zeta. cbn [fst snd].
  destruct (PyStr.contains "image" (reltype rel)); [|discriminate].
  destruct (rel_target_part rel) as [|msg|part]; [discriminate | discriminate |]. cbn.
  destruct (blob part) as [[|x d]|]; [discriminate | reflexivity | discriminate].
Qed.

(** The loop, from any state: it gets through the relationships before
    the first one on which the condition raises; the attempts among them
    are numbered on from the counter, and each leaves its entry. *)
Lemma extract_loop_spec rels : forall st,
  let att := numbered (S (file_image_count st)) (List.filter attempted (scanned rels)) in
  let res := extract_loop write_file image_dir doc_name st rels in
  image_refs res.1
    = insert_all (image_refs st) (omap (ref_entry write_file image_dir doc_name) att)
  /\ file_image_count res.1
     = file_image_count st + length (List.filter attempted (scanned rels))
  /\ stats res.1
     = fold_left add_failed_image
         (omap (failure_entry write_file image_dir doc_name) att) (stats st)
  /\ written_files res.1
     = written_files st ++ omap (written_entry write_file image_dir doc_name) att
  /\ res.2 = scan_error rels.
Proof.
  induction rels as [|rel rels IH]; intros st; cbn zeta.
  - cbn. rewrite Nat.add_0_r, app_nil_r. auto.
  - cbn [extract_loop scanned scan_error].
    destruct (guard_raises rel) as [msg|] eqn:Hg.
    { rewrite (extract_rel_raises st rel msg Hg). cbn.
      rewrite Nat.add_0_r, app_nil_r. auto. }
    cbn [List.filter].
    destruct (attempted rel) eqn:Ha.
    + rewrite (extract_rel_attempted st rel Ha). cbn zeta.
      cbn [numbered omap list_omap].
      unfold ref_entry at 1, failure_entry at 1, written_entry at 1.
      destruct (attempt_result write_file image_dir doc_name
                  (S (file_image_count st), rel)) as [|e].
      * match goal with
        | |- context [extract_loop _ _ _ ?s rels] =>
            destruct (IH s) as (I1 & I2 & I3 & I4 & I5)
        end.
        cbn zeta in I1, I2, I3, I4, I5.
        cbn [image_refs file_image_count stats written_files] in I1, I2, I3, I4, I5.
        rewrite I1, I2, I3, I4, I5.
        cbn [fst snd length fold_left insert_all].
        repeat split; [lia | now rewrite <- app_assoc].
      * match goal with
        | |- context [extract_loop _ _ _ ?s rels] =>
            destruct (IH s) as (I1 & I2 & I3 & I4 & I5)
        end.
        cbn zeta in I1, I2, I3, I4, I5.
        cbn [image_refs file_image_count stats written_files] in I1, I2, I3, I4, I5.
        rewrite I1, I2, I3, I4, I5.
        cbn [fst snd length fold_left insert_all].
        repeat split. lia.
    + rewrite (extract_rel_skipped st rel Hg Ha). apply IH.
Qed.

(** What [extract_images] returns, field by field. *)
Lemma extract_images_spec rels stats0 :
  let att := numbered 1 (List.filter attempted (scanned rels)) in
  let r := extract_images write_file image_dir doc_name rels stats0 in
  let failures :=
    fold_left add_failed_image
      (omap (failure_entry write_file image_dir doc_name) att) stats0 in
  image_refs r = insert_all ∅ (omap (ref_entry write_file image_dir doc_name) att)
  /\ file_image_count r = length (List.filter attempted (scanned rels))
  /\ stats r
     = match scan_error rels with
       | None =>
           record_image_count failures doc_name
             (length (List.filter attempted (scanned rels)))
       | Some msg => add_failed_image failures (doc_name, process_error doc_name msg)
       end
  /\ written_files r = omap (written_entry write_file image_dir doc_name) att.
Proof.
  cbn zeta. unfold extract_images.
  destruct (extract_loop_spec rels
              {| image_refs := ∅; file_image_count := 0;
                 stats := stats0; written_files := [] |})
    as (H1 & H2 & H3 & H4 & H5).
  cbn zeta in H1, H2, H3, H4, H5.
  cbn [image_refs file_image_count stats written_files] in H1, H2, H3, H4, H5.
  destruct (extract_loop write_file image_dir doc_name _ rels) as [st err].
  cbn [fst snd] in *. subst err.
  destruct (scan_error rels);
    cbn [image_refs file_image_count stats written_files];
    rewrite ?H1, ?H2, ?H3, ?H4; auto.
Qed.

Lemma ref_keys_sublist (l : list Rel) : forall n,
  (omap (ref_entry write_file image_dir doc_name) (numbered n l)).*1
    `sublist_of` (rId <$> l).
Proof.
  induction l as [|rel l IH]; intros n; cbn; [constructor|].
  unfold ref_entry at 1.
  destruct (attempt_result write_file image_dir doc_name (n, rel));
    cbn; constructor; apply IH.
Qed.

Lemma entries_partition (att : list (nat * Rel)) :
  length (omap (ref_entry write_file image_dir doc_name) att)
  + length (omap (failure_entry write_file image_dir doc_name) att)
  = length att.
Proof.
  induction att as [|a att IH]; cbn; [reflexivity|].
  unfold ref_entry at 1, failure_entry at 1.
  destruct (attempt_result write_file image_dir doc_name a); cbn; lia.
Qed.


End ExtractorProperties.

(** C6: the extraction attempts of a document are the image relationships
    with a payload that is not empty which the loop reaches, in the order
    of the relationship table (all of them, unless an exception outside
    the handler of one image ends the loop).  They carry the sequence
    numbers 1, 2, 3, ...; the counter grows by one for every attempt,
    before the write and whatever its outcome, and not at all for a
    relationship that is skipped, such as one with an empty payload.  The
    files written and the returned mapping hold the entries of the
    attempts whose write succeeded, under their own sequence numbers; the
    failed ones are recorded as failed images. *)
Theorem image_sequence_numbers
  (write_file : string -> list Byte.byte -> IOResult) (image_dir doc_name : string)
  (rels : list Rel) (stats0 : ConversionStats) :
  let r := extract_images write_file image_dir doc_name rels stats0 in
  (attempts rels).*1 = seq 1 (length (attempts rels))
  /\ (attempts rels).*2 = List.filter attempted (scanned rels)
  /\ (scan_error rels = None -> scanned rels = rels)
  /\ file_image_count r = length (attempts rels)
  /\ (forall st rel,
        attempted rel = true ->
        exists st',
          extract_rel write_file image_dir doc_name st rel = Next st'
          /\ file_image_count st' = S (file_image_count st))
  /\ (forall st rel,
        target_part rel ≫= blob = Some [] ->
        extract_rel write_file image_dir doc_name st rel = Next st)
  /\ written_files r
     = omap (written_entry write_file image_dir doc_name) (attempts rels)
  /\ image_refs r
     = insert_all ∅ (omap (ref_entry write_file image_dir doc_name) (attempts rels))
  /\ (forall rid path,
        image_refs r !! rid = Some path ->
        exists a, a ∈ attempts rels /\ rId a.2 = rid
                  /\ attempt_result write_file image_dir doc_name a = Written
                  /\ path = "./images/" +:+ image_filename doc_name a.1 a.2)
  /\ failed_images (stats r)
     = failed_images stats0
         ++ omap (failure_entry write_file image_dir doc_name) (attempts rels)
         ++ match scan_error rels with
            | Some msg => [(doc_name, process_error doc_name msg)]
            | None => []
            end.
Proof.
  cbn zeta. unfold attempts.
  destruct (extract_images_spec write_file image_dir doc_name rels stats0)
    as (H1 & H2 & H3 & H4).
  cbn zeta in H1, H2, H3, H4.
  rewrite !numbered_length.
  split; [apply numbered_fst|]. split; [apply numbered_snd|].
  split; [apply scanned_all|].
  split; [exact H2|].
  split.
  { intros st rel Ha. rewrite (extract_rel_attempted _ _ _ st rel Ha). cbn zeta.
    destruct (attempt_result _ _ _ _); eauto. }
  split.
  { intros st rel Hp. apply extract_rel_skipped.
    - unfold guard_raises. unfold target_part in Hp.
      destruct (PyStr.contains _ _); [|reflexivity].
      now destruct (rel_target_part rel).
    - unfold attempted, payload. rewrite Hp. apply andb_false_r. }
  split; [exact H4|]. split; [exact H1|]. split.
  - intros rid path Hl. rewrite H1 in Hl.
    apply insert_all_lookup in Hl as [Hl|Hl]; [|now rewrite lookup_empty in Hl].
    apply list_elem_of_omap in Hl as (a & Ha & He).
    exists a. split; [exact Ha|].
    unfold ref_entry in He.
    destruct (attempt_result write_file image_dir doc_name a); [|discriminate].
    injection He as <- <-. auto.
  - rewrite H3.
    set (new := omap (failure_entry write_file image_dir doc_name)
                  (numbered 1 (List.filter attempted (scanned rels)))).
    destruct (fold_failed_images new stats0) as (Hf & _ & _).
    destruct (scan_error rels); cbn [failed_images record_image_count add_failed_image];
      rewrite Hf; [now rewrite <- app_assoc | now rewrite app_nil_r].
Qed.


Lemma image_sequence_numbers_witness :
  let r := extract_images sample_disk "out/images" "d" sample_rels no_stats in
  written_files r
  = [("out/images/d_image_1.png", some_bytes); ("out/images/d_image_3.png", some_bytes)]
  /\ file_image_count r = 3
  /\ image_refs r !! "rId5" = Some "./images/d_image_3.png"
  /\ image_refs r !! "rId4" = None
  /\ failed_images (stats r)
     = [("d", "Failed to extract image 2 from d: disk full")].
Proof.
  cbn zeta.
  destruct (image_sequence_numbers sample_disk "out/images" "d" sample_rels no_stats)
    as (_ & _ & _ & H3 & _ & _ & H6 & H7 & _ & H9).
  rewrite H3, H6, H7, H9.
  repeat split; vm_compute; reflexivity.
Defined.



(** * Further properties *)

(** ** The post-pass, again *)

Lemma clean_up_idem {A} (line_of : A -> string) (l : list A) : forall last,
  clean_up line_of last (clean_up line_of last l) = clean_up line_of last l.
Proof.
  induction l as [|x l IH]; intros last; [reflexivity|].
  cbn [clean_up]. destruct (is_blank line_of x) eqn:Hx; cbn [negb].
  - destruct last; cbn [negb]; [apply IH|].
    cbn [clean_up]. rewrite Hx. cbn [negb]. f_equal. apply IH.
  - cbn [clean_up]. rewrite Hx. cbn [negb]. f_equal. apply IH.
Qed.

(** X1: the post-pass changes nothing when run on its own output. *)
Theorem post_pass_idempotent (image_refs : gmap string string) (paragraphs : list Paragraph) :
  clean_up id false (cleaned_content image_refs paragraphs)
  = cleaned_content image_refs paragraphs.
Proof. unfold cleaned_content. apply clean_up_idem. Qed.

(** ** What the extractor writes *)

Lemma numbered_elem {A} (l : list A) : forall k n x,
  (n, x) ∈ numbered k l -> x ∈ l /\ k <= n < k + length l.
Proof.
  induction l as [|y l IH]; intros k n x H; [inversion H|].
  cbn in H. apply elem_of_cons in H as [[= -> ->]|H].
  - split; [now left | cbn; lia].
  - apply IH in H as [H1 H2]. split; [now right | cbn; lia].
Qed.

Lemma elem_of_filter_bool {A} (f : A -> bool) (l : list A) x :
  x ∈ List.filter f l <-> x ∈ l /\ f x = true.
Proof. rewrite !list_elem_of_In. apply filter_In. Qed.



Lemma append_cons a (d s : string) : String a d +:+ s = String a (d +:+ s).
Proof. reflexivity. Qed.

Lemma append_nil (s : string) : EmptyString +:+ s = s.
Proof. reflexivity. Qed.

Lemma append_assoc_char (d : string) c s :
  (d +:+ String c EmptyString) +:+ s = d +:+ String c s.
Proof.
  induction d as [|a d IH]; [reflexivity|].
  change (String a ((d +:+ String c EmptyString) +:+ s) = String a (d +:+ String c s)).
  now rewrite IH.
Qed.

Lemma all_digits_snoc (d : string) c :
  all_digits d = true -> is_Some (PyStr.digit_of c) ->
  all_digits (d +:+ String c EmptyString) = true.
Proof.
  intros Hd [v Hv]. induction d as [|a d IH].
  - rewrite append_nil. cbn [all_digits]. now rewrite Hv.
  - rewrite append_cons. cbn [all_digits] in *.
    destruct (PyStr.digit_of a); [auto | discriminate].
Qed.

Lemma pretty_N_char_digit (x : N) :
  (x < 10)%N -> PyStr.digit_of (pretty_N_char x) = Some (Z.of_N x).
Proof.
  intros H.
  assert (x = 0 \/ x = 1 \/ x = 2 \/ x = 3 \/ x = 4 \/ x = 5 \/ x = 6
          \/ x = 7 \/ x = 8 \/ x = 9)%N as Hx by lia.
  repeat (destruct Hx as [->|Hx]; [reflexivity|]). now subst.
Qed.

Lemma digits_value_snoc (d : string) c : forall acc,
  digits_value acc (d +:+ String c EmptyString)
  = (10 * digits_value acc d + default 0 (PyStr.digit_of c))%Z.
Proof.
  induction d as [|a d IH]; intros acc; [reflexivity|].
  rewrite append_cons. cbn [digits_value]. apply IH.
Qed.

(** The decimal numeral of [x], pushed in front of [s]: digits only,
    denoting [x], and at least one when [x] is positive. *)
Lemma pretty_N_go_digits (x : N) : forall s,
  exists d, pretty_N_go x s = d +:+ s
            /\ all_digits d = true
            /\ digits_value 0 d = Z.of_N x
            /\ ((0 < x)%N -> d <> EmptyString).
Proof.
  induction (N.lt_wf_0 x) as [x _ IH]; intros s.
  assert (x = 0 \/ 0 < x)%N as [->|Hx] by lia.
  - exists EmptyString. rewrite pretty_N_go_0. repeat split. lia.
  - rewrite pretty_N_go_step by exact Hx.
    destruct (IH (x `div` 10)%N (N.div_lt x 10 Hx eq_refl)
                (String (pretty_N_char (x `mod` 10)) s))
      as (d & Hd & Hall & Hval & _).
    assert (Hm : (x `mod` 10 < 10)%N) by (apply N.mod_lt; lia).
    exists (d +:+ String (pretty_N_char (x `mod` 10)) EmptyString).
    rewrite append_assoc_char. split; [exact Hd|]. split.
    + apply all_digits_snoc; [exact Hall|].
      rewrite (pretty_N_char_digit _ Hm). eauto.
    + split.
      * rewrite digits_value_snoc, Hval, (pretty_N_char_digit _ Hm). cbn.
        rewrite (N.div_mod x 10) at 3 by lia. lia.
      * intros _. now destruct d.
Qed.

Lemma append_empty (d : string) : d +:+ EmptyString = d.
Proof.
  induction d as [|a d IH]; [reflexivity|].
  change (String a (d +:+ EmptyString) = String a d). now rewrite IH.
Qed.

Lemma pretty_nat_digits (n : nat) :
  all_digits (pretty n) = true
  /\ digits_value 0 (pretty n) = Z.of_nat n
  /\ pretty n <> EmptyString.
Proof.
  unfold pretty, pretty_nat, pretty, pretty_N.
  case_decide as H0.
  - assert (n = 0) as -> by lia. repeat split. discriminate.
  - destruct (pretty_N_go_digits (N.of_nat n) EmptyString) as (d & Hd & Hall & Hval & Hne).
    rewrite Hd, append_empty.
    split; [exact Hall|]. split; [rewrite Hval; lia|]. apply Hne. lia.
Qed.

(** Two numerals followed by a dot: the numerals end at the dot. *)
Lemma digits_dot_inj (d : string) : forall d' e e',
  all_digits d = true -> all_digits d' = true ->
  d +:+ String "." e = d' +:+ String "." e' -> d = d'.
Proof.
  induction d as [|a d IH]; intros [|a' d'] e e' Hd Hd' H;
    rewrite ?append_cons, ?append_nil in H; cbn [all_digits] in *.
  - reflexivity.
  - injection H as <- _. discriminate Hd'.
  - injection H as -> _. discriminate Hd.
  - injection H as <- H.
    destruct (PyStr.digit_of a); [|discriminate].
    f_equal. eapply IH; eauto.
Qed.

Lemma image_filename_inj doc_name n rel n' rel' :
  image_filename doc_name n rel = image_filename doc_name n' rel' -> n = n'.
Proof.
  unfold image_filename. intros H.
  apply (inj (String.append doc_name)) in H.
  apply (inj (String.append "_image_")) in H.
  apply (inj (pretty : nat -> string)).
  eapply (digits_dot_inj _ _ (image_ext rel) (image_ext rel'));
    [apply pretty_nat_digits | apply pretty_nat_digits | exact H].
Qed.

Lemma prefix_empty (s : string) : String.prefix EmptyString s = true.
Proof. now destruct s. Qed.

Lemma path_join_image_inj image_dir doc_name t t' :
  PyStr.path_join image_dir (doc_name +:+ "_image_" +:+ t)
  = PyStr.path_join image_dir (doc_name +:+ "_image_" +:+ t') ->
  t = t'.
Proof.
  unfold PyStr.path_join, PyStr.startswith.
  assert (Hp : String.prefix "/" (doc_name +:+ "_image_" +:+ t)
               = String.prefix "/" (doc_name +:+ "_image_" +:+ t')).
  { destruct doc_name as [|c doc_name]; [reflexivity|].
    rewrite !append_cons. cbn [String.prefix].
    destruct (ascii_dec "/" c); [|reflexivity].
    now rewrite !prefix_empty. }
  rewrite <- Hp.
  destruct (String.prefix "/" (doc_name +:+ "_image_" +:+ t)).
  - intros H. apply (inj (String.append doc_name)) in H.
    now apply (inj (String.append "_image_")) in H.
  - destruct (negb (PyStr.truthy image_dir) || String.prefix "/" (String.rev image_dir));
      intros H; apply (inj (String.append image_dir)) in H;
      [|apply (inj (String.append "/")) in H];
      apply (inj (String.append doc_name)) in H;
      now apply (inj (String.append "_image_")) in H.
Qed.

Lemma attempt_path_inj image_dir doc_name (a a' : nat * Rel) :
  attempt_path image_dir doc_name a = attempt_path image_dir doc_name a' -> a.1 = a'.1.
Proof.
  destruct a as [n rel], a' as [n' rel'].
  unfold attempt_path, image_filename. cbn [fst snd]. intros H.
  apply path_join_image_inj in H.
  apply (image_filename_inj doc_name n rel n' rel').
  unfold image_filename. now rewrite H.
Qed.

Lemma numbered_functional {A} (l : list A) : forall k n x y,
  (n, x) ∈ numbered k l -> (n, y) ∈ numbered k l -> x = y.
Proof.
  induction l as [|h l IH]; intros k n x y Hx Hy; [inversion Hx|].
  cbn in Hx, Hy.
  apply elem_of_cons in Hx as [Hx|Hx];
    apply elem_of_cons in Hy as [Hy|Hy]; simplify_eq.
  - reflexivity.
  - apply numbered_elem in Hy. lia.
  - apply numbered_elem in Hx. lia.
  - eapply IH; eauto.
Qed.

Lemma insert_all_notin es : forall (m : gmap string string) k,
  k ∉ es.*1 -> insert_all m es !! k = m !! k.
Proof.
  induction es as [|[k' v'] es IH]; intros m k Hk; [reflexivity|].
  change (insert_all m ((k', v') :: es)) with (insert_all (<[k':=v']> m) es).
  cbn in Hk. apply not_elem_of_cons in Hk as [Hne Hk].
  rewrite IH by exact Hk. now apply lookup_insert_ne.
Qed.

Lemma insert_all_lookup_NoDup es : forall (m : gmap string string) k v,
  NoDup es.*1 -> (k, v) ∈ es -> insert_all m es !! k = Some v.
Proof.
  induction es as [|[k' v'] es IH]; intros m k v Hnd Hin; [inversion Hin|].
  change (insert_all m ((k', v') :: es)) with (insert_all (<[k':=v']> m) es).
  cbn in Hnd. apply NoDup_cons in Hnd as [Hk' Hnd].
  apply elem_of_cons in Hin as [[= -> ->]|Hin].
  - rewrite insert_all_notin by exact Hk'. apply lookup_insert_eq.
  - now apply IH.
Qed.

Section WrittenFiles.

Variable write_file : string -> list Byte.byte -> IOResult.
Variables image_dir doc_name : string.

Lemma written_entry_path a p d :
  written_entry write_file image_dir doc_name a = Some (p, d) ->
  p = attempt_path image_dir doc_name a /\ d = payload a.2
  /\ attempt_result write_file image_dir doc_name a = Written.
Proof.
  unfold written_entry.
  destruct (attempt_result write_file image_dir doc_name a); [|discriminate].
  now intros [= <- <-].
Qed.

Lemma ref_entry_path a rid p :
  ref_entry write_file image_dir doc_name a = Some (rid, p) ->
  rid = rId a.2 /\ p = "./images/" +:+ image_filename doc_name a.1 a.2
  /\ attempt_result write_file image_dir doc_name a = Written.
Proof.
  unfold ref_entry.
  destruct (attempt_result write_file image_dir doc_name a); [|discriminate].
  now intros [= <- <-].
Qed.

Lemma written_paths_NoDup (l : list Rel) : forall k,
  NoDup (omap (written_entry write_file image_dir doc_name) (numbered k l)).*1.
Proof.
  induction l as [|x l IH]; intros k; cbn; [constructor|].
  destruct (written_entry write_file image_dir doc_name (k, x)) as [[p d]|] eqn:E;
    [|apply IH].
  cbn. apply NoDup_cons. split; [|apply IH].
  intros Hin. apply list_elem_of_fmap in Hin as ([p' d'] & Hp & Hin).
  cbn in Hp. subst p'.
  apply list_elem_of_omap in Hin as (a & Ha & Ea).
  apply written_entry_path in E as (-> & _ & _).
  apply written_entry_path in Ea as (Ea & _ & _).
  apply attempt_path_inj in Ea. cbn in Ea.
  destruct a as [n y]. apply numbered_elem in Ha. cbn in Ea. lia.
Qed.

End WrittenFiles.

(** X3: no two image files of a document are written to the same path,
    and no two relationship ids of the returned mapping refer to the same
    file. *)
Theorem image_files_distinct
  (write_file : string -> list Byte.byte -> IOResult) (image_dir doc_name : string)
  (rels : list Rel) (stats0 : ConversionStats) :
  NoDup (written_files (extract_images write_file image_dir doc_name rels stats0)).*1
  /\ forall rid1 rid2 path,
       image_refs (extract_images write_file image_dir doc_name rels stats0) !! rid1
         = Some path ->
       image_refs (extract_images write_file image_dir doc_name rels stats0) !! rid2
         = Some path ->
       rid1 = rid2.
Proof.
  destruct (extract_images_spec write_file image_dir doc_name rels stats0)
    as (H1 & _ & _ & H4).
  cbn zeta in H1, H4.
  rewrite H1, H4. split; [apply written_paths_NoDup|].
  assert (Hlook : forall rid path,
            insert_all ∅ (omap (ref_entry write_file image_dir doc_name)
                            (numbered 1 (List.filter attempted (scanned rels)))) !! rid
            = Some path ->
            exists a, a ∈ numbered 1 (List.filter attempted (scanned rels))
                      /\ rid = rId a.2
                      /\ path = "./images/" +:+ image_filename doc_name a.1 a.2).
  { intros rid path Hl.
    apply insert_all_lookup in Hl as [Hl|Hl]; [|now rewrite lookup_empty in Hl].
    apply list_elem_of_omap in Hl as (a & Ha & He).
    apply ref_entry_path in He as (? & ? & _). eauto. }
  intros rid1 rid2 path Hl1 Hl2.
  apply Hlook in Hl1 as ([n1 r1] & Ha1 & -> & ->).
  apply Hlook in Hl2 as ([n2 r2] & Ha2 & -> & Hp).
  cbn [fst snd] in *.
  apply (inj (String.append "./images/")) in Hp.
  apply image_filename_inj in Hp. subst n2.
  now rewrite (numbered_functional _ _ _ _ _ Ha1 Ha2).
Qed.

(** X4: when the relationship ids of the table are distinct, the returned
    mapping holds exactly the attempts whose write succeeded, among the
    attempts made before the loop ends: the id of each is mapped to
    [./images/] followed by the name of its file.  A relationship after
    one that ends the loop is no attempt, and its id is not mapped. *)
Theorem image_refs_complete
  (write_file : string -> list Byte.byte -> IOResult) (image_dir doc_name : string)
  (rels : list Rel) (stats0 : ConversionStats) :
  NoDup (rId <$> rels) ->
  forall rid path,
    image_refs (extract_images write_file image_dir doc_name rels stats0) !! rid = Some path
    <-> exists a, a ∈ attempts rels /\ rId a.2 = rid
                  /\ attempt_result write_file image_dir doc_name a = Written
                  /\ path = "./images/" +:+ image_filename doc_name a.1 a.2.
Proof.
  intros Hnd rid path. unfold attempts.
  destruct (extract_images_spec write_file image_dir doc_name rels stats0)
    as (H1 & _).
  cbn zeta in H1. rewrite H1. split.
  - intros Hl.
    apply insert_all_lookup in Hl as [Hl|Hl]; [|now rewrite lookup_empty in Hl].
    apply list_elem_of_omap in Hl as (a & Ha & He).
    apply ref_entry_path in He as (? & ? & ?). eauto.
  - intros (a & Ha & <- & Hw & ->).
    apply insert_all_lookup_NoDup.
    + eapply sublist_NoDup; [exact Hnd|].
      etrans; [apply ref_keys_sublist | apply scanned_rId_sublist].
    + apply list_elem_of_omap. exists a. split; [exact Ha|].
      unfold ref_entry. now rewrite Hw.
Qed.

(** ** Characters of emitted strings *)

Lemma chars_append c (a b : string) :
  In c (list_ascii_of_string (a +:+ b))
  <-> In c (list_ascii_of_string a) \/ In c (list_ascii_of_string b).
Proof.
  induction a as [|x a IH]; [cbn; tauto|].
  rewrite append_cons. cbn [list_ascii_of_string In]. rewrite IH. tauto.
Qed.

Lemma replace_removes c by_ (s : string) :
  ~ In c (list_ascii_of_string by_) ->
  ~ In c (list_ascii_of_string (PyStr.replace c by_ s)).
Proof.
  intros Hby. induction s as [|d s IH]; cbn [PyStr.replace]; [cbn; tauto|].
  rewrite chars_append. intros [H|H]; [|exact (IH H)].
  destruct (Ascii.eqb d c) eqn:E; [exact (Hby H)|].
  cbn in H. destruct H as [->|[]]. now rewrite Ascii.eqb_refl in E.
Qed.

Lemma lstrip_chars c (s : string) :
  In c (list_ascii_of_string (PyStr.lstrip s)) -> In c (list_ascii_of_string s).
Proof.
  induction s as [|d s IH]; cbn [PyStr.lstrip]; [tauto|].
  destruct (PyStr.isspace d); [|tauto]. intros H. right. exact (IH H).
Qed.

Lemma rstrip_chars c (s : string) :
  In c (list_ascii_of_string (PyStr.rstrip s)) -> In c (list_ascii_of_string s).
Proof.
  induction s as [|d s IH]; cbn [PyStr.rstrip]; [tauto|].
  destruct (PyStr.rstrip s) as [|e r].
  - destruct (PyStr.isspace d); cbn; tauto.
  - cbn [list_ascii_of_string In] in *. tauto.
Qed.

Lemma strip_chars c (s : string) :
  In c (list_ascii_of_string (PyStr.strip s)) -> In c (list_ascii_of_string s).
Proof. intros H. now apply lstrip_chars, rstrip_chars. Qed.

(** A string that does not start with white space. *)
Lemma lstrip_fix (s : string) :
  match s with String c _ => PyStr.isspace c = false | EmptyString => True end ->
  PyStr.lstrip s = s.
Proof. destruct s as [|c s]; [reflexivity|]. cbn. now intros ->. Qed.

Lemma lstrip_head (s : string) :
  match PyStr.lstrip s with
  | String c _ => PyStr.isspace c = false
  | EmptyString => True
  end.
Proof.
  induction s as [|c s IH]; cbn [PyStr.lstrip]; [exact I|].
  destruct (PyStr.isspace c) eqn:E; [exact IH | exact E].
Qed.

Lemma rstrip_head (s : string) :
  match s with String c _ => PyStr.isspace c = false | EmptyString => True end ->
  match PyStr.rstrip s with
  | String c _ => PyStr.isspace c = false
  | EmptyString => True
  end.
Proof.
  destruct s as [|c s]; [intros _; exact I|]. intros Hc. cbn [PyStr.rstrip].
  destruct (PyStr.rstrip s); [rewrite Hc|]; exact Hc.
Qed.

Lemma rstrip_cons c (s : string) :
  PyStr.rstrip (String c s)
  = match PyStr.rstrip s with
    | EmptyString => if PyStr.isspace c then EmptyString else String c EmptyString
    | r => String c r
    end.
Proof. reflexivity. Qed.

Lemma rstrip_idem (s : string) : PyStr.rstrip (PyStr.rstrip s) = PyStr.rstrip s.
Proof.
  induction s as [|c s IH]; [reflexivity|]. rewrite rstrip_cons.
  destruct (PyStr.rstrip s) as [|d r] eqn:E.
  - destruct (PyStr.isspace c) eqn:Hc; [reflexivity|]. cbn. now rewrite Hc.
  - rewrite rstrip_cons, IH. reflexivity.
Qed.

Lemma strip_idem (s : string) : PyStr.strip (PyStr.strip s) = PyStr.strip s.
Proof.
  unfold PyStr.strip.
  rewrite (lstrip_fix (PyStr.rstrip (PyStr.lstrip s))).
  - apply rstrip_idem.
  - apply rstrip_head, lstrip_head.
Qed.

(** X5: the alternative text of an image is one line without white space
    at either end: it holds no newline, trimming it again changes nothing,
    and it is "Image" when the drawing has no description. *)
Theorem alt_text_sanitized (g : Graphic) :
  ~ In "010"%char (list_ascii_of_string (alt_text_of g))
  /\ PyStr.strip (alt_text_of g) = alt_text_of g
  /\ (docPr_descr g = None \/ docPr_descr g = Some None -> alt_text_of g = "Image").
Proof.
  unfold alt_text_of. split; [|split].
  - intros H. apply strip_chars in H. revert H. apply replace_removes.
    cbn. intros [H|[]]. discriminate H.
  - apply strip_idem.
  - intros [->| ->]; reflexivity.
Qed.

Lemma render_no_tab_fixed e :
  match e with Line _ => True | _ => ~ In "009"%char (list_ascii_of_string (render e)) end.
Proof.
  destruct e; cbn; try exact I; try tauto.
  all: intros H; repeat (destruct H as [H|H]; [discriminate H|]); exact H.
Qed.

(** X6: a code paragraph appends no tab character: every tab of its text
    has been replaced by spaces (and every image of it is left out of the
    code line, which joins the text items only). *)
Theorem code_line_has_no_tab (image_refs : gmap string string) (in_code_block : bool)
  (p : Paragraph) :
  classify image_refs p = Code ->
  snd (paragraph_step image_refs in_code_block p) = true
  /\ last (fst (paragraph_step image_refs in_code_block p))
     = Some (Line (PyStr.replace "009" "    "
                     (PyStr.join (text_items (paragraph_content image_refs p)))))
  /\ forall e, e ∈ fst (paragraph_step image_refs in_code_block p) ->
       ~ In "009"%char (list_ascii_of_string (render e)).
Proof.
  intros Hc. rewrite classify_step, Hc. cbn [fst snd].
  split; [reflexivity|]. split; [now destruct in_code_block|].
  intros e He. apply elem_of_app in He as [He|He].
  - pose proof (render_no_tab_fixed e) as Hf.
    destruct in_code_block; [inversion He|].
    apply elem_of_cons in He as [->|He]; [exact Hf|].
    apply list_elem_of_singleton in He as ->. exact Hf.
  - apply list_elem_of_singleton in He as ->. cbn [render]. unfold code_line.
    apply replace_removes. cbn.
    intros H; repeat (destruct H as [H|H]; [discriminate H|]); exact H.
Qed.

(** ** Runs of code paragraphs *)

Lemma code_paragraphs_loop image_refs (ps : list Paragraph) :
  Forall (fun p => classify image_refs p = Code) ps ->
  paragraphs_loop image_refs true ps
  = ((fun p => Line (code_line (paragraph_content image_refs p))) <$> ps, true).
Proof.
  induction 1 as [|p ps Hp _ IH]; [reflexivity|].
  cbn [paragraphs_loop]. rewrite classify_step, Hp, IH. reflexivity.
Qed.

Lemma clean_up_no_blank (l : list string) : forall last,
  Forall (fun line => is_blank id line = false) l -> clean_up id last l = l.
Proof.
  induction l as [|x l IH]; intros last H; [reflexivity|].
  apply Forall_cons in H as [Hx Hl]. cbn [clean_up]. rewrite Hx. cbn [negb].
  f_equal. now apply IH.
Qed.

(** X7: a document made of code paragraphs only gives one fenced block.
    Before the post-pass [md_content] is a blank line, the opening
    fence, one code line for each paragraph in order, the closing fence
    and a blank line.  The post-pass keeps the two fences and the two
    blank lines around them and treats the code lines like any other
    line, so of neighbouring blank code lines only the first stays: the
    lines joined into the file are the blank line, the opening fence,
    the code lines after the post-pass, the closing fence and the blank
    line; when no code line is blank after trimming these are all the
    code lines, one for each paragraph. *)
Theorem code_paragraphs_one_block (image_refs : gmap string string)
  (p : Paragraph) (ps : list Paragraph) :
  Forall (fun p => classify image_refs p = Code) (p :: ps) ->
  let code_lines :=
    (fun p => code_line (paragraph_content image_refs p)) <$> (p :: ps) in
  md_content image_refs (p :: ps)
  = [Blank; FenceOpen] ++ (Line <$> code_lines) ++ [FenceClose; Blank]
  /\ cleaned_emits image_refs (p :: ps)
     = [Blank; FenceOpen] ++ clean_up render false (Line <$> code_lines)
         ++ [FenceClose; Blank]
  /\ cleaned_content image_refs (p :: ps)
     = [EmptyString; "```"] ++ clean_up id false code_lines ++ ["```"; EmptyString]
  /\ (Forall (fun line => is_blank id line = false) code_lines ->
        cleaned_content image_refs (p :: ps)
        = [EmptyString; "```"] ++ code_lines ++ ["```"; EmptyString]).
Proof.
  intros H code_lines.
  assert (Hmd : md_content image_refs (p :: ps)
                = [Blank; FenceOpen] ++ (Line <$> code_lines) ++ [FenceClose; Blank]).
  { apply Forall_cons in H as [Hp Hps].
    unfold md_content. cbn [paragraphs_loop].
    rewrite classify_step, Hp, (code_paragraphs_loop _ _ Hps).
    subst code_lines. cbn [fmap list_fmap app]. rewrite <- list_fmap_compose.
    reflexivity. }
  assert (Hce : cleaned_emits image_refs (p :: ps)
                = [Blank; FenceOpen] ++ clean_up render false (Line <$> code_lines)
                    ++ [FenceClose; Blank]).
  { unfold cleaned_emits. rewrite Hmd. cbn [app clean_up].
    change (negb (is_blank render Blank)) with false.
    change (negb (is_blank render FenceOpen)) with true.
    cbn [negb]. now rewrite clean_up_closing. }
  assert (Hcc : cleaned_content image_refs (p :: ps)
                = [EmptyString; "```"] ++ clean_up id false code_lines
                    ++ ["```"; EmptyString]).
  { unfold cleaned_content, md_lines. rewrite <- clean_up_render.
    fold (cleaned_emits image_refs (p :: ps)). rewrite Hce.
    rewrite !fmap_app, clean_up_render, <- list_fmap_compose.
    cbn [fmap list_fmap render app]. f_equal. f_equal. f_equal.
    f_equal. now rewrite list_fmap_id. }
  split; [exact Hmd|]. split; [exact Hce|]. split; [exact Hcc|].
  intros Hnb. rewrite Hcc. now rewrite (clean_up_no_blank _ _ Hnb).
Qed.

(** ** Image links and image files *)




(** ** What the extractor leaves alone *)

Lemma fold_failed_frame l : forall s,
  total_files (fold_left add_failed_image l s) = total_files s
  /\ successful_files (fold_left add_failed_image l s) = successful_files s
  /\ failed_files (fold_left add_failed_image l s) = failed_files s.
Proof.
  induction l as [|e l IH]; intros s; cbn; [auto|].
  destruct (IH (add_failed_image s e)) as (-> & -> & ->). auto.
Qed.

(** X9: the extractor touches only the image part of the stats object:
    the file counters and lists stay as they are, the failed images
    recorded before stay in front of the new ones, which all bear the
    document name, the total of images does not shrink, and the image
    counts of other documents stay as they are. *)
Theorem extract_images_frame
  (write_file : string -> list Byte.byte -> IOResult) (image_dir doc_name : string)
  (rels : list Rel) (stats0 : ConversionStats) :
  let st := stats (extract_images write_file image_dir doc_name rels stats0) in
  total_files st = total_files stats0
  /\ successful_files st = successful_files stats0
  /\ failed_files st = failed_files stats0
  /\ (exists new, failed_images st = failed_images stats0 ++ new
                  /\ Forall (fun e => e.1 = doc_name) new
                  /\ length new <= length rels)
  /\ total_images stats0 <= total_images st
  /\ forall other, other <> doc_name ->
       file_image_counts st !! other = file_image_counts stats0 !! other.
Proof.
  cbn zeta.
  destruct (extract_images_spec write_file image_dir doc_name rels stats0)
    as (_ & _ & H3 & _).
  cbn zeta in H3. rewrite H3. clear H3.
  set (new := omap (failure_entry write_file image_dir doc_name)
                (numbered 1 (List.filter attempted (scanned rels)))).
  destruct (fold_failed_frame new stats0) as (Ht & Hs & Hf).
  destruct (fold_failed_images new stats0) as (Hi & Hn & Hc).
  assert (Hnew : Forall (fun e => e.1 = doc_name) new).
  { apply Forall_forall. intros e He.
    apply list_elem_of_omap in He as (a & _ & He).
    unfold failure_entry in He.
    destruct (attempt_result _ _ _ a); [discriminate|]. now injection He as <-. }
  assert (Hlen : length new <= length (scanned rels)).
  { pose proof (entries_partition write_file image_dir doc_name
                  (numbered 1 (List.filter attempted (scanned rels)))) as Hp.
    rewrite numbered_length in Hp.
    pose proof (filter_length_le attempted (scanned rels)). fold new in Hp. lia. }
  destruct (scan_error rels) as [msg|] eqn:Herr;
    cbn [total_files successful_files failed_files failed_images total_images
         file_image_counts record_image_count add_failed_image];
    rewrite ?Ht, ?Hs, ?Hf, ?Hi, ?Hn, ?Hc.
  - split; [reflexivity|]. split; [reflexivity|]. split; [reflexivity|].
    split; [|split; [lia | reflexivity]].
    exists (new ++ [(doc_name, process_error doc_name msg)]).
    split; [now rewrite app_assoc|]. split.
    + apply Forall_app. split; [exact Hnew | now repeat constructor].
    + rewrite length_app. cbn. pose proof (scanned_short rels msg Herr). lia.
  - split; [reflexivity|]. split; [reflexivity|]. split; [reflexivity|].
    split; [|split; [lia|]].
    + exists new. split; [reflexivity|]. split; [exact Hnew|].
      pose proof (scanned_length rels). lia.
    + intros other Hne. now apply lookup_insert_ne.
Qed.

(** ** A linked image *)

Lemma scanned_stop rels1 rel rels2 msg :
  Forall (fun r => guard_raises r = None) rels1 ->
  guard_raises rel = Some msg ->
  scanned (rels1 ++ rel :: rels2) = rels1
  /\ scan_error (rels1 ++ rel :: rels2) = Some msg
  /\ scanned rels1 = rels1
  /\ scan_error rels1 = None.
Proof.
  intros H Hrel. induction H as [|r rels1 Hr _ IH]; cbn.
  - now rewrite Hrel.
  - rewrite Hr. destruct IH as (-> & -> & -> & ->). auto.
Qed.

(** X20: a relationship on which the condition of the loop raises, as an
    image relationship whose target is external does, ends the
    extraction.  The mapping returned, the files written and the counter
    are those of the relationships before it; the relationships after it
    are not looked at, so none of them gets into the mapping unless its
    id is also the id of an earlier one.  The stats get one more failed
    image, [Failed to process images in <doc_name>: <message>], after
    those of the failed writes; no image count is recorded for the
    document and nothing is added to the total, not even the images
    written before. *)
Theorem linked_image_stops_extraction
  (write_file : string -> list Byte.byte -> IOResult) (image_dir doc_name : string)
  (rels1 : list Rel) (rel : Rel) (rels2 : list Rel) (msg : string)
  (stats0 : ConversionStats) :
  Forall (fun r => guard_raises r = None) rels1 ->
  guard_raises rel = Some msg ->
  let r := extract_images write_file image_dir doc_name (rels1 ++ rel :: rels2) stats0 in
  let r1 := extract_images write_file image_dir doc_name rels1 stats0 in
  image_refs r = image_refs r1
  /\ written_files r = written_files r1
  /\ file_image_count r = file_image_count r1
  /\ failed_images (stats r)
     = failed_images (stats r1) ++ [(doc_name, process_error doc_name msg)]
  /\ total_images (stats r) = total_images stats0
  /\ file_image_counts (stats r) = file_image_counts stats0
  /\ (forall rel', rel' ∈ rels2 -> rId rel' ∉ rId <$> rels1 ->
        image_refs r !! rId rel' = None).
Proof.
  intros Hrels1 Hrel. cbn zeta.
  destruct (scanned_stop rels1 rel rels2 msg Hrels1 Hrel) as (Hs & He & Hs1 & He1).
  destruct (extract_images_spec write_file image_dir doc_name
              (rels1 ++ rel :: rels2) stats0) as (H1 & H2 & H3 & H4).
  destruct (extract_images_spec write_file image_dir doc_name rels1 stats0)
    as (G1 & G2 & G3 & G4).
  cbn zeta in H1, H2, H3, H4, G1, G2, G3, G4.
  rewrite Hs in H1, H2, H3, H4. rewrite He in H3.
  rewrite Hs1 in G1, G2, G3, G4. rewrite He1 in G3.
  set (new := omap (failure_entry write_file image_dir doc_name)
                (numbered 1 (List.filter attempted rels1))) in *.
  destruct (fold_failed_images new stats0) as (Hf & Ht & Hc).
  split; [now rewrite H1, G1|]. split; [now rewrite H4, G4|].
  split; [now rewrite H2, G2|].
  split; [rewrite H3, G3; reflexivity|].
  split; [rewrite H3; exact Ht|]. split; [rewrite H3; exact Hc|].
  intros rel' _ Hnew. rewrite H1.
  destruct (insert_all ∅ _ !! rId rel') as [path|] eqn:E; [|reflexivity].
  exfalso. apply Hnew.
  apply insert_all_lookup in E as [E|E]; [|now rewrite lookup_empty in E].
  apply list_elem_of_omap in E as ([n x] & Ha & E).
  apply ref_entry_path in E as (E & _). cbn [snd] in E.
  apply numbered_elem in Ha as [Ha _].
  apply elem_of_filter_bool in Ha as [Ha _].
  rewrite E. apply list_elem_of_fmap. exists x. auto.
Qed.

(** ** Converting one document *)

Lemma extract_keeps_files write_file image_dir doc_name rels st :
  total_files (stats (extract_images write_file image_dir doc_name rels st))
    = total_files st
  /\ successful_files (stats (extract_images write_file image_dir doc_name rels st))
     = successful_files st
  /\ failed_files (stats (extract_images write_file image_dir doc_name rels st))
     = failed_files st.
Proof.
  destruct (extract_images_spec write_file image_dir doc_name rels st)
    as (_ & _ & H3 & _).
  cbn zeta in H3. rewrite H3.
  destruct (scan_error rels);
    cbn [total_files successful_files failed_files record_image_count add_failed_image];
    apply fold_failed_frame.
Qed.

(** The mapping, the files written and the new failed images do not
    depend on the stats object the extractor is given. *)
Lemma extract_images_stats_free write_file image_dir doc_name rels st st' :
  image_refs (extract_images write_file image_dir doc_name rels st)
  = image_refs (extract_images write_file image_dir doc_name rels st')
  /\ written_files (extract_images write_file image_dir doc_name rels st)
     = written_files (extract_images write_file image_dir doc_name rels st').
Proof.
  destruct (extract_images_spec write_file image_dir doc_name rels st)
    as (H1 & _ & _ & H4).
  destruct (extract_images_spec write_file image_dir doc_name rels st')
    as (H1' & _ & _ & H4').
  cbn zeta in *. now rewrite H1, H1', H4, H4'.
Qed.

Lemma convert_body_files os doc_path output_dir st :
  let c := convert_body os doc_path output_dir st in
  total_files (conv_stats c) = total_files st
  /\ failed_files (conv_stats c) = failed_files st
  /\ match conv_result c with
     | Ok output_path =>
         successful_files (conv_stats c) = successful_files st ++ [doc_path]
         /\ exists md_text, conv_markdown c = Some (output_path, md_text)
     | Raise _ =>
         successful_files (conv_stats c) = successful_files st
         /\ conv_markdown c = None
     end.
Proof.
  cbn zeta. unfold convert_body.
  destruct (os_exists os doc_path); cbn [negb]; [|cbn; auto].
  destruct (os_getsize os doc_path) as [file_size|e]; [|cbn; auto].
  destruct (file_size =? 0)%Z; [cbn; auto|].
  destruct (os_Document os doc_path) as [doc|e];
    [|destruct (PyStr.contains _ _); cbn; auto].
  destruct (os_relpath os _ _) as [rel_path|e]; [|cbn; auto].
  destruct (os_makedirs os (PyStr.path_join output_dir rel_path)) as [[]|e];
    [|cbn; auto].
  destruct (os_makedirs os (PyStr.path_join (PyStr.path_join output_dir rel_path) "images"))
    as [[]|e]; [|cbn; auto].
  cbn zeta.
  match goal with
  | |- context [extract_images ?w ?d ?n ?r st] =>
      destruct (extract_keeps_files w d n r st) as (Ht & Hs & Hf)
  end.
  destruct (os_write_text os _ _) as [[]|e];
    cbn [conv_result conv_stats conv_markdown add_successful_file
         total_files successful_files failed_files];
    rewrite ?Ht, ?Hs, ?Hf; eauto.
Qed.

Lemma convert_body_result_free os doc_path output_dir st st' :
  conv_result (convert_body os doc_path output_dir st)
  = conv_result (convert_body os doc_path output_dir st')
  /\ conv_images (convert_body os doc_path output_dir st)
     = conv_images (convert_body os doc_path output_dir st')
  /\ conv_markdown (convert_body os doc_path output_dir st)
     = conv_markdown (convert_body os doc_path output_dir st').
Proof.
  unfold convert_body.
  destruct (os_exists os doc_path); cbn [negb]; [|cbn; auto].
  destruct (os_getsize os doc_path) as [file_size|e]; [|cbn; auto].
  destruct (file_size =? 0)%Z; [cbn; auto|].
  destruct (os_Document os doc_path) as [doc|e];
    [|destruct (PyStr.contains _ _); cbn; auto].
  destruct (os_relpath os _ _) as [rel_path|e]; [|cbn; auto].
  destruct (os_makedirs os (PyStr.path_join output_dir rel_path)) as [[]|e];
    [|cbn; auto].
  destruct (os_makedirs os (PyStr.path_join (PyStr.path_join output_dir rel_path) "images"))
    as [[]|e]; [|cbn; auto].
  cbn zeta.
  match goal with
  | |- context [extract_images ?w ?d ?n ?r st] =>
      destruct (extract_images_stats_free w d n r st st') as (-> & ->)
  end.
  destruct (os_write_text os _ _) as [[]|e]; cbn; auto.
Qed.

Lemma convert_spec os doc_path output_dir st :
  let c := convert_to_markdown os doc_path output_dir st in
  total_files (conv_stats c) = total_files st
  /\ match conv_result c with
     | Ok output_path =>
         successful_files (conv_stats c) = successful_files st ++ [doc_path]
         /\ failed_files (conv_stats c) = failed_files st
         /\ exists md_text, conv_markdown c = Some (output_path, md_text)
     | Raise e =>
         successful_files (conv_stats c) = successful_files st
         /\ failed_files (conv_stats c)
            = failed_files st ++ [(doc_path, failure_text doc_path e)]
         /\ conv_markdown c = None
     end.
Proof.
  cbn zeta. unfold convert_to_markdown.
  pose proof (convert_body_files os doc_path output_dir st) as (Ht & Hf & H).
  cbn zeta in Ht, Hf, H.
  destruct (conv_result (convert_body os doc_path output_dir st)) as [out|e] eqn:E.
  - rewrite E. destruct H as [Hs Hm]. auto.
  - cbn [conv_result conv_stats conv_markdown add_failed_file
         total_files successful_files failed_files].
    destruct H as [Hs Hm]. rewrite Hf. auto.
Qed.

Lemma convert_result_free os doc_path output_dir st st' :
  conv_result (convert_to_markdown os doc_path output_dir st)
  = conv_result (convert_to_markdown os doc_path output_dir st')
  /\ conv_images (convert_to_markdown os doc_path output_dir st)
     = conv_images (convert_to_markdown os doc_path output_dir st')
  /\ conv_markdown (convert_to_markdown os doc_path output_dir st)
     = conv_markdown (convert_to_markdown os doc_path output_dir st').
Proof.
  unfold convert_to_markdown.
  destruct (convert_body_result_free os doc_path output_dir st st') as (Hr & Hi & Hm).
  rewrite Hr.
  destruct (conv_result (convert_body os doc_path output_dir st')) eqn:E; cbn; [|auto].
  split; [congruence | auto].
Qed.


(** X11: a document that is not opened leaves nothing behind but its
    failure record.  When the file does not exist, its size cannot be
    read or is zero, or the archive parser raises, the call raises, no
    image and no Markdown file is written, and the stats object differs
    from the one passed in by one failed-file entry only.  The exception
    is [FileNotFoundError] with "File not found: <path>" for a missing
    file, [ValueError] with "File is empty: <path>" for an empty one, and
    [ValueError] with the corrupted-file text when the parser's message
    holds "Package not found". *)
Theorem unopened_document_leaves_nothing (os : OS) (doc_path output_dir : string)
  (st : ConversionStats) :
  os_exists os doc_path = false
  \/ (exists e, os_getsize os doc_path = Raise e)
  \/ os_getsize os doc_path = Ok 0%Z
  \/ (exists e, os_Document os doc_path = Raise e) ->
  exists e,
    convert_to_markdown os doc_path output_dir st
    = {| conv_result := Raise e;
         conv_stats := add_failed_file st (doc_path, failure_text doc_path e);
         conv_images := [];
         conv_markdown := None |}
    /\ (os_exists os doc_path = false ->
        e = mkExn FileNotFoundError ("File not found: " +:+ doc_path))
    /\ (os_exists os doc_path = true -> os_getsize os doc_path = Ok 0%Z ->
        e = mkExn ValueError ("File is empty: " +:+ doc_path))
    /\ (forall n e0,
          os_exists os doc_path = true -> os_getsize os doc_path = Ok n -> n <> 0%Z ->
          os_Document os doc_path = Raise e0 ->
          PyStr.contains "Package not found" (exn_msg e0) = true ->
          e = mkExn ValueError (corrupted_msg doc_path)).
Proof.
  intros H. unfold convert_to_markdown, convert_body.
  destruct (os_exists os doc_path) eqn:Hex; cbn [negb].
  2:{ eexists. split; [reflexivity|]. repeat split; intros; congruence. }
  destruct (os_getsize os doc_path) as [n|e1] eqn:Hsz.
  2:{ exists e1. split; [reflexivity|]. repeat split; intros; congruence. }
  destruct (Z.eqb_spec n 0) as [->|Hn].
  { eexists. split; [reflexivity|]. repeat split; intros; congruence. }
  destruct (os_Document os doc_path) as [doc|e0] eqn:Hdoc.
  { destruct H as [H|[[e H]|[H|[e H]]]]; congruence. }
  destruct (PyStr.contains "Package not found" (exn_msg e0)) eqn:Hpk.
  - eexists. split; [reflexivity|]. repeat split; intros; congruence.
  - exists e0. split; [reflexivity|]. repeat split; intros; congruence.
Qed.

(** The successful run of the body: everything it needs, and what it
    leaves. *)
Lemma convert_body_ok os doc_path output_dir st output_path :
  conv_result (convert_body os doc_path output_dir st) = Ok output_path ->
  exists n doc rel_path,
    os_exists os doc_path = true
    /\ os_getsize os doc_path = Ok n /\ n <> 0%Z
    /\ os_Document os doc_path = Ok doc
    /\ os_relpath os (os_dirname os doc_path) (os_dirname os output_dir) = Ok rel_path
    /\ os_makedirs os (PyStr.path_join output_dir rel_path) = Ok tt
    /\ os_makedirs os (PyStr.path_join (PyStr.path_join output_dir rel_path) "images")
       = Ok tt
    /\ convert_body os doc_path output_dir st
       = (let target_dir := PyStr.path_join output_dir rel_path in
         let r := extract_images (os_write_image os)
                    (PyStr.path_join target_dir "images") (os_stem os doc_path)
                    (doc_rels doc) st in
         let md_text :=
           String.concat (String "010" EmptyString)
             (cleaned_content (image_refs r) (doc_paragraphs doc)) in
         {| conv_result := Ok (PyStr.path_join target_dir (os_stem os doc_path +:+ ".md"));
            conv_stats := add_successful_file (stats r) doc_path;
            conv_images := written_files r;
            conv_markdown :=
              Some (PyStr.path_join target_dir (os_stem os doc_path +:+ ".md"), md_text) |})
    /\ os_write_text os
         (PyStr.path_join (PyStr.path_join output_dir rel_path)
            (os_stem os doc_path +:+ ".md"))
         (String.concat (String "010" EmptyString)
            (cleaned_content
               (image_refs
                  (extract_images (os_write_image os)
                     (PyStr.path_join (PyStr.path_join output_dir rel_path) "images")
                     (os_stem os doc_path) (doc_rels doc) st))
               (doc_paragraphs doc)))
       = Ok tt.
Proof.
  unfold convert_body.
  destruct (os_exists os doc_path); cbn [negb]; [|discriminate].
  destruct (os_getsize os doc_path) as [n|e]; [|discriminate].
  destruct (Z.eqb_spec n 0) as [->|Hn]; [discriminate|].
  destruct (os_Document os doc_path) as [doc|e];
    [|destruct (PyStr.contains _ _); discriminate].
  destruct (os_relpath os _ _) as [rel_path|e]; [|discriminate].
  destruct (os_makedirs os (PyStr.path_join output_dir rel_path)) as [[]|e] eqn:Hm1;
    [|discriminate].
  destruct (os_makedirs os (PyStr.path_join (PyStr.path_join output_dir rel_path) "images"))
    as [[]|e] eqn:Hm2; [|discriminate].
  cbn zeta.
  destruct (os_write_text os _ _) as [[]|e] eqn:Hw; [|discriminate].
  intros _. exists n, doc, rel_path. repeat split; auto.
Qed.

(** X12: [convert_to_markdown] returns only if the file exists with a
    size other than zero, the parser opens it, the relative directory is
    computed, the target directory and its [images] directory are made
    and the Markdown file is written.  What it returns is then
    [<output_dir>/<relative dir>/<stem>.md]; it has written there the
    lines of [cleaned_content], computed with the mapping the extractor
    returned, joined by newlines, has written the image files of the
    extractor and no other, and has appended the document path to the
    successful files of the stats the extractor left. *)
Theorem convert_success (os : OS) (doc_path output_dir : string) (st : ConversionStats)
  (output_path : string) :
  conv_result (convert_to_markdown os doc_path output_dir st) = Ok output_path
  -> exists n doc rel_path,
        os_exists os doc_path = true
        /\ os_getsize os doc_path = Ok n /\ n <> 0%Z
        /\ os_Document os doc_path = Ok doc
        /\ os_relpath os (os_dirname os doc_path) (os_dirname os output_dir) = Ok rel_path
        /\ let target_dir := PyStr.path_join output_dir rel_path in
           let r := extract_images (os_write_image os)
                      (PyStr.path_join target_dir "images") (os_stem os doc_path)
                      (doc_rels doc) st in
           let md_text :=
             String.concat (String "010" EmptyString)
               (cleaned_content (image_refs r) (doc_paragraphs doc)) in
           os_makedirs os target_dir = Ok tt
           /\ os_makedirs os (PyStr.path_join target_dir "images") = Ok tt
           /\ output_path = PyStr.path_join target_dir (os_stem os doc_path +:+ ".md")
           /\ os_write_text os output_path md_text = Ok tt
           /\ convert_to_markdown os doc_path output_dir st
              = {| conv_result := Ok output_path;
                   conv_stats := add_successful_file (stats r) doc_path;
                   conv_images := written_files r;
                   conv_markdown := Some (output_path, md_text) |}.
Proof.
  intros H.
  assert (Hb : conv_result (convert_body os doc_path output_dir st) = Ok output_path).
  { unfold convert_to_markdown in H.
    destruct (conv_result (convert_body os doc_path output_dir st)) eqn:E;
      [now rewrite E in H | discriminate H]. }
  destruct (convert_body_ok _ _ _ _ _ Hb)
    as (n & doc & rel_path & Hex & Hsz & Hn & Hdoc & Hrel & Hm1 & Hm2 & Heq & Hw).
  exists n, doc, rel_path.
  split; [exact Hex|]. split; [exact Hsz|]. split; [exact Hn|].
  split; [exact Hdoc|]. split; [exact Hrel|]. cbn zeta.
  assert (Hout : output_path
                 = PyStr.path_join (PyStr.path_join output_dir rel_path)
                     (os_stem os doc_path +:+ ".md")).
  { rewrite Heq in Hb. cbn in Hb. congruence. }
  split; [exact Hm1|]. split; [exact Hm2|]. split; [exact Hout|].
  split; [now rewrite Hout|].
  unfold convert_to_markdown. rewrite Hb, Heq, Hout. reflexivity.
Qed.


(** ** Walking a directory *)

(** One file with a Word suffix: what the loop body does with it, read
    off the outcome of its path. *)
Lemma process_file_word os output_dir root st file :
  is_word_file file = true ->
  let doc_path := PyStr.path_join root file in
  let st' := process_file os output_dir root st file in
  total_files (dir_stats st') = S (total_files (dir_stats st))
  /\ converted_files st'
     = converted_files st ++ option_list (converted_entry os output_dir doc_path)
  /\ successful_files (dir_stats st')
     = successful_files (dir_stats st)
         ++ option_list (fst <$> converted_entry os output_dir doc_path)
  /\ failed_files (dir_stats st')
     = failed_files (dir_stats st) ++ option_list (failed_entry os output_dir doc_path).
Proof.
  intros Hw. cbn zeta. unfold process_file, converted_entry, failed_entry, file_outcome.
  rewrite Hw.
  destruct (os_read_header os (PyStr.path_join root file)) as [header|e].
  2:{ cbn. rewrite !app_nil_r. auto. }
  destruct (bytes_eqb header zip_header); cbn [negb].
  2:{ cbn. rewrite !app_nil_r. auto. }
  destruct (convert_result_free os (PyStr.path_join root file) output_dir
              (incr_total_files (dir_stats st)) new_stats) as (<- & _ & _).
  pose proof (convert_spec os (PyStr.path_join root file) output_dir
                (incr_total_files (dir_stats st))) as (Ht & H).
  cbn zeta in Ht, H.
  cbn [dir_stats converted_files].
  destruct (conv_result _) as [out|e];
    destruct H as (Hs & Hf & _); rewrite Ht, Hs, Hf; cbn; rewrite ?app_nil_r; auto.
Qed.

Lemma process_file_other os output_dir root st file :
  is_word_file file = false -> process_file os output_dir root st file = st.
Proof. intros H. unfold process_file. now rewrite H. Qed.

Lemma process_files_spec os output_dir root files : forall st,
  let paths := PyStr.path_join root <$> List.filter is_word_file files in
  let st' := fold_left (process_file os output_dir root) files st in
  total_files (dir_stats st') = total_files (dir_stats st) + length paths
  /\ converted_files st'
     = converted_files st ++ omap (converted_entry os output_dir) paths
  /\ successful_files (dir_stats st')
     = successful_files (dir_stats st)
         ++ (fst <$> omap (converted_entry os output_dir) paths)
  /\ failed_files (dir_stats st')
     = failed_files (dir_stats st) ++ omap (failed_entry os output_dir) paths.
Proof.
  induction files as [|file files IH]; intros st; cbn zeta.
  - cbn. rewrite !app_nil_r. auto.
  - cbn [fold_left List.filter].
    specialize (IH (process_file os output_dir root st file)). cbn zeta in IH.
    destruct IH as (I1 & I2 & I3 & I4). rewrite I1, I2, I3, I4. clear I1 I2 I3 I4.
    destruct (is_word_file file) eqn:Hw.
    + destruct (process_file_word os output_dir root st file Hw) as (-> & -> & -> & ->).
      cbn [fmap list_fmap omap list_omap length].
      destruct (converted_entry os output_dir (PyStr.path_join root file));
        destruct (failed_entry os output_dir (PyStr.path_join root file));
        cbn; rewrite <- ?app_assoc; cbn; repeat split; f_equal; lia.
    + rewrite (process_file_other _ _ _ _ _ Hw). auto.
Qed.

Lemma process_roots_spec os output_dir walk : forall st,
  let paths :=
    concat ((fun entry : string * list string =>
               PyStr.path_join entry.1 <$> List.filter is_word_file entry.2) <$> walk) in
  let st' := fold_left (process_root os output_dir) walk st in
  total_files (dir_stats st') = total_files (dir_stats st) + length paths
  /\ converted_files st'
     = converted_files st ++ omap (converted_entry os output_dir) paths
  /\ successful_files (dir_stats st')
     = successful_files (dir_stats st)
         ++ (fst <$> omap (converted_entry os output_dir) paths)
  /\ failed_files (dir_stats st')
     = failed_files (dir_stats st) ++ omap (failed_entry os output_dir) paths.
Proof.
  induction walk as [|[root files] walk IH]; intros st; cbn zeta.
  - cbn. rewrite !app_nil_r. auto.
  - cbn [fold_left fmap list_fmap concat fst snd].
    specialize (IH (process_root os output_dir st (root, files))). cbn zeta in IH.
    destruct IH as (I1 & I2 & I3 & I4). rewrite I1, I2, I3, I4. clear I1 I2 I3 I4.
    unfold process_root. cbn [fst snd].
    destruct (process_files_spec os output_dir root files st) as (-> & -> & -> & ->).
    rewrite !omap_app, !fmap_app, !length_app, <- !app_assoc.
    repeat split. lia.
Qed.

Lemma outcomes_partition os output_dir (paths : list string) :
  length paths
  = length (omap (converted_entry os output_dir) paths)
    + length (omap (failed_entry os output_dir) paths)
    + length (List.filter (is_unreadable os output_dir) paths).
Proof.
  induction paths as [|p paths IH]; [reflexivity|].
  cbn [omap list_omap List.filter length].
  unfold converted_entry at 1, failed_entry at 1, is_unreadable at 1.
  destruct (file_outcome os output_dir p); cbn [length]; lia.
Qed.

Lemma bytes_eqb_eq (a : list Byte.byte) : forall b, bytes_eqb a b = true -> a = b.
Proof.
  induction a as [|x a IH]; intros [|y b] H; try discriminate H; [reflexivity|].
  cbn [bytes_eqb] in H. apply andb_prop in H as [Hx H].
  apply Byte.byte_dec_bl in Hx. subst y. f_equal. now apply IH.
Qed.

(** X13: [process_directory] returns, in the order of the walk, exactly
    the files with a Word suffix whose first four bytes are those of a
    ZIP archive and whose conversion returns, each with its output path;
    and it appends exactly their paths to the successful files. *)
Theorem process_directory_returns (os : OS) (source_dir output_dir : string)
  (st : ConversionStats) :
  let d := process_directory os source_dir output_dir st in
  converted_files d = omap (converted_entry os output_dir) (word_paths os source_dir)
  /\ successful_files (dir_stats d) = successful_files st ++ (fst <$> converted_files d)
  /\ forall doc_path output_path,
       (doc_path, output_path) ∈ converted_files d ->
       doc_path ∈ word_paths os source_dir
       /\ os_read_header os doc_path = Ok zip_header
       /\ conv_result (convert_to_markdown os doc_path output_dir new_stats)
          = Ok output_path.
Proof.
  cbn zeta. unfold process_directory, word_paths.
  destruct (process_roots_spec os output_dir (os_walk os source_dir)
              {| dir_stats := st; converted_files := []; skipped_files := [];
                 dir_images := []; dir_markdown := [] |})
    as (_ & H2 & H3 & _).
  cbn [dir_stats converted_files app] in H2, H3.
  split; [exact H2|]. split; [now rewrite H3, H2|].
  intros doc_path output_path Hin. rewrite H2 in Hin.
  apply list_elem_of_omap in Hin as (p & Hp & He).
  unfold converted_entry, file_outcome in He.
  destruct (os_read_header os p) as [header|e] eqn:Hh; [|discriminate].
  destruct (bytes_eqb header zip_header) eqn:Hz; [|discriminate].
  destruct (conv_result _) as [out|e] eqn:Hc; [|discriminate].
  injection He as <- <-.
  split; [exact Hp|]. split; [|exact Hc].
  rewrite Hh. f_equal. now apply bytes_eqb_eq.
Qed.

(** X14: every file with a Word suffix is counted, and ends in exactly
    one of three ways: converted, recorded as failed (because its first
    bytes are not those of a ZIP archive, with the text saying so, or
    because its conversion raised), or skipped without a failure record
    because its first bytes could not be read.  So the count of files
    grows by the number of such files, which is the number of new
    successful files plus the number of new failed files plus the number
    of unreadable ones. *)
Theorem process_directory_accounts (os : OS) (source_dir output_dir : string)
  (st : ConversionStats) :
  let d := process_directory os source_dir output_dir st in
  let paths := word_paths os source_dir in
  total_files (dir_stats d) = total_files st + length paths
  /\ failed_files (dir_stats d)
     = failed_files st ++ omap (failed_entry os output_dir) paths
  /\ length paths
     = length (converted_files d)
       + length (omap (failed_entry os output_dir) paths)
       + length (List.filter (is_unreadable os output_dir) paths)
  /\ total_files (dir_stats d) - total_files st
     = (length (successful_files (dir_stats d)) - length (successful_files st))
       + (length (failed_files (dir_stats d)) - length (failed_files st))
       + length (List.filter (is_unreadable os output_dir) paths).
Proof.
  cbn zeta. unfold process_directory, word_paths.
  destruct (process_roots_spec os output_dir (os_walk os source_dir)
              {| dir_stats := st; converted_files := []; skipped_files := [];
                 dir_images := []; dir_markdown := [] |})
    as (H1 & H2 & H3 & H4).
  cbn [dir_stats converted_files app] in H1, H2, H3, H4.
  rewrite H1, H2, H3, H4.
  pose proof (outcomes_partition os output_dir
                (concat ((fun entry : string * list string =>
                            PyStr.path_join entry.1 <$> List.filter is_word_file entry.2)
                         <$> os_walk os source_dir))) as Hp.
  split; [reflexivity|]. split; [reflexivity|]. split; [exact Hp|].
  rewrite !length_app, length_fmap. lia.
Qed.

(** ** The exit status *)

Lemma exit_status_spec (st : ConversionStats) :
  (exit_status st = 0%Z \/ exit_status st = 1%Z)
  /\ (exit_status st = 0%Z <-> failed_files st = [] /\ failed_images st = []).
Proof.
  unfold exit_status.
  destruct (failed_files st), (failed_images st); split; auto;
    split; try discriminate; try tauto; intros [? ?]; discriminate.
Qed.

(** X15: [main] returns 0 or 1, and 0 exactly when the target directory
    could be made and, when it returns, the stats object holds no failed
    file and no failed image.  In particular a single source file whose
    conversion raises gives 1, and so does any failed image write, even
    when every document was converted. *)
Theorem main_exit_status (os : OS) (source target : string) :
  ((main os source target).1 = 0%Z \/ (main os source target).1 = 1%Z)
  /\ ((main os source target).1 = 0%Z
      <-> (exists u, os_makedirs os target = Ok u)
          /\ failed_files (main os source target).2 = []
          /\ failed_images (main os source target).2 = []).
Proof.
  unfold main.
  destruct (os_makedirs os target) as [u|e].
  2:{ cbn. split; [auto|]. split; [discriminate|]. intros [[u Hu] _]. discriminate. }
  assert (Hok : exists u', Ok u = @Ok unit u') by eauto.
  destruct (os_isfile os source).
  - destruct (is_word_file source).
    + pose proof (convert_spec os source target (incr_total_files new_stats)) as (_ & H).
      cbn zeta in H.
      destruct (conv_result _) as [out|e]; cbn [fst snd].
      * destruct (exit_status_spec
                    (conv_stats (convert_to_markdown os source target
                                   (incr_total_files new_stats)))) as [H1 H2].
        split; [exact H1|]. rewrite H2. tauto.
      * split; [auto|]. split; [discriminate|].
        intros (_ & Hf & _). destruct H as (_ & Hff & _).
        rewrite Hff in Hf. now destruct (failed_files _).
    + cbn [fst snd]. destruct (exit_status_spec new_stats) as [H1 H2].
      split; [exact H1|]. rewrite H2. tauto.
  - cbn [fst snd].
    destruct (exit_status_spec
                (dir_stats (process_directory os source target new_stats))) as [H1 H2].
    split; [exact H1|]. rewrite H2. tauto.
Qed.

Lemma process_files_unreadable os output_dir root files : forall st,
  (forall file, file ∈ files -> is_word_file file = true ->
     exists e, os_read_header os (PyStr.path_join root file) = Raise e) ->
  let st' := fold_left (process_file os output_dir root) files st in
  dir_stats st'
  = Nat.iter (length (List.filter is_word_file files)) incr_total_files (dir_stats st)
  /\ converted_files st' = converted_files st
  /\ dir_images st' = dir_images st
  /\ dir_markdown st' = dir_markdown st.
Proof.
  induction files as [|file files IH]; intros st H; cbn zeta; [cbn; auto|].
  cbn [fold_left List.filter].
  destruct (IH (process_file os output_dir root st file)) as (I1 & I2 & I3 & I4).
  { intros f Hf. apply H. now right. }
  rewrite I1, I2, I3, I4. clear I1 I2 I3 I4.
  unfold process_file. destruct (is_word_file file) eqn:Hw; [|auto].
  destruct (H file) as [e He]; [now left | exact Hw|].
  rewrite He. cbn [dir_stats converted_files dir_images dir_markdown length].
  rewrite Nat.iter_succ_r. auto.
Qed.

Lemma process_roots_unreadable os output_dir walk : forall st,
  (forall p, p ∈ concat ((fun entry : string * list string =>
                            PyStr.path_join entry.1 <$> List.filter is_word_file entry.2)
                         <$> walk) ->
     exists e, os_read_header os p = Raise e) ->
  let st' := fold_left (process_root os output_dir) walk st in
  dir_stats st'
  = Nat.iter (length (concat ((fun entry : string * list string =>
                                 PyStr.path_join entry.1
                                   <$> List.filter is_word_file entry.2) <$> walk)))
      incr_total_files (dir_stats st)
  /\ converted_files st' = converted_files st
  /\ dir_images st' = dir_images st
  /\ dir_markdown st' = dir_markdown st.
Proof.
  induction walk as [|[root files] walk IH]; intros st H; cbn zeta; [cbn; auto|].
  cbn [fold_left fmap list_fmap concat fst snd] in *.
  destruct (IH (process_root os output_dir st (root, files))) as (I1 & I2 & I3 & I4).
  { intros p Hp. apply H. apply elem_of_app. now right. }
  rewrite I1, I2, I3, I4. clear I1 I2 I3 I4.
  unfold process_root. cbn [fst snd].
  destruct (process_files_unreadable os output_dir root files st) as (-> & -> & -> & ->).
  { intros file Hf Hw. apply H. apply elem_of_app. left.
    apply list_elem_of_fmap. exists file. split; [reflexivity|].
    now apply elem_of_filter_bool. }
  rewrite length_app, length_fmap, Nat.add_comm, Nat.iter_add. auto.
Qed.

Lemma iter_incr_total n st :
  Nat.iter n incr_total_files st
  = {| total_files := total_files st + n;
       successful_files := successful_files st;
       failed_files := failed_files st;
       total_images := total_images st;
       failed_images := failed_images st;
       file_image_counts := file_image_counts st |}.
Proof.
  induction n as [|n IH].
  - destruct st. cbn. now rewrite Nat.add_0_r.
  - rewrite Nat.iter_succ, IH. unfold incr_total_files. cbn. f_equal. lia.
Qed.

(** X16: files whose first bytes cannot be read do not show in the exit
    status.  When the source is a directory, the target directory can be
    made, and reading the first bytes raises for every file with a Word
    suffix, [main] returns 0: the files are counted, none is converted,
    nothing is written, and none is recorded as failed. *)
Theorem unreadable_files_pass (os : OS) (source target : string) :
  os_isfile os source = false ->
  (exists u, os_makedirs os target = Ok u) ->
  (forall p, p ∈ word_paths os source -> exists e, os_read_header os p = Raise e) ->
  main os source target
  = (0%Z, {| total_files := length (word_paths os source);
             successful_files := []; failed_files := [];
             total_images := 0; failed_images := []; file_image_counts := ∅ |})
  /\ converted_files (process_directory os source target new_stats) = []
  /\ dir_images (process_directory os source target new_stats) = []
  /\ dir_markdown (process_directory os source target new_stats) = [].
Proof.
  intros Hfile [u Hu] Hall. unfold main. rewrite Hu, Hfile.
  unfold process_directory.
  destruct (process_roots_unreadable os target (os_walk os source)
              {| dir_stats := new_stats; converted_files := []; skipped_files := [];
                 dir_images := []; dir_markdown := [] |} Hall)
    as (H1 & H2 & H3 & H4).
  cbn [dir_stats converted_files dir_images dir_markdown] in *.
  rewrite H1, H2, H3, H4, iter_incr_total. cbn. auto.
Qed.

(** ** Numbered heading styles *)

Lemma digit_not_space c : is_Some (PyStr.digit_of c) -> PyStr.isspace c = false.
Proof.
  unfold PyStr.digit_of, PyStr.isspace. intros [v H].
  destruct (48 <=? nat_of_ascii c)%nat eqn:E1; [|discriminate].
  destruct (nat_of_ascii c <=? 57)%nat eqn:E2; [|discriminate].
  apply Nat.leb_le in E1, E2.
  apply orb_false_iff. split; apply andb_false_iff.
  - right. apply Nat.leb_gt. lia.
  - right. apply Nat.leb_gt. lia.
Qed.

Lemma rstrip_digits (d : string) : all_digits d = true -> PyStr.rstrip d = d.
Proof.
  induction d as [|c d IH]; [reflexivity|]. cbn [all_digits].
  destruct (PyStr.digit_of c) eqn:Hc; [|discriminate]. intros Hd.
  rewrite rstrip_cons, (IH Hd).
  destruct d; [|reflexivity].
  rewrite digit_not_space; [reflexivity | rewrite Hc; eauto].
Qed.

Lemma strip_digits (d : string) : all_digits d = true -> PyStr.strip d = d.
Proof.
  intros Hd. unfold PyStr.strip. rewrite lstrip_fix; [now apply rstrip_digits|].
  destruct d as [|c d]; [exact I|]. cbn [all_digits] in Hd.
  destruct (PyStr.digit_of c) eqn:Hc; [|discriminate].
  apply digit_not_space. rewrite Hc. eauto.
Qed.

Lemma parse_all_digits (d : string) : forall acc prev,
  all_digits d = true -> d <> EmptyString \/ prev = true ->
  PyStr.parse_digits acc prev d = Some (digits_value acc d).
Proof.
  induction d as [|c d IH]; intros acc prev Hd Hne.
  - destruct Hne as [Hne| ->]; [congruence | reflexivity].
  - cbn [all_digits PyStr.parse_digits digits_value] in *.
    destruct (PyStr.digit_of c) as [v|]; [|discriminate].
    cbn [default]. apply IH; [exact Hd | now right].
Qed.

(** A sign is no digit: a numeral is read without the sign cases. *)
Lemma int_unsigned c (r : string) :
  is_Some (PyStr.digit_of c) ->
  PyStr.strip (String c r) = String c r ->
  PyStr.int (String c r) = PyStr.parse_unsigned (String c r).
Proof.
  intros [v Hv] Hs. unfold PyStr.int. rewrite Hs.
  destruct c as [[] [] [] [] [] [] [] []]; try reflexivity;
    vm_compute in Hv; discriminate Hv.
Qed.

Lemma count_all_digits (d : string) :
  all_digits d = true -> PyStr.count_digits d = String.length d.
Proof.
  induction d as [|c d IH]; [reflexivity|]. cbn [all_digits PyStr.count_digits String.length].
  destruct (PyStr.digit_of c); [|discriminate]. intros Hd. now rewrite IH.
Qed.

(** [int(str(n))] is [n] as long as [str(n)] has no more digits than
    [int] accepts, and raises beyond. *)
Lemma int_pretty (n : nat) :
  PyStr.int (pretty n)
  = if (String.length (pretty n) <=? PyStr.max_str_digits)%nat
    then Some (Z.of_nat n) else None.
Proof.
  destruct (pretty_nat_digits n) as (Hd & Hv & Hne).
  pose proof (count_all_digits _ Hd) as Hc.
  destruct (pretty n) as [|c d] eqn:E; [congruence|].
  rewrite int_unsigned.
  - unfold PyStr.parse_unsigned. rewrite Hc, Nat.ltb_antisym.
    destruct (String.length (String c d) <=? PyStr.max_str_digits)%nat; [|reflexivity].
    cbn [negb]. rewrite parse_all_digits; [now rewrite Hv | exact Hd | now left].
  - cbn [all_digits] in Hd. destruct (PyStr.digit_of c); [eauto | discriminate].
  - now apply strip_digits.
Qed.

Lemma rev_app_rev_app (s : string) : forall t u,
  String.rev_app (String.rev_app s t) u = String.rev_app t (s +:+ u).
Proof.
  induction s as [|a s IH]; intros t u; [reflexivity|].
  cbn [String.rev_app]. rewrite IH. reflexivity.
Qed.

Lemma split_ws_go_digits (d : string) : forall cur,
  all_digits d = true ->
  PyStr.split_ws_go cur d
  = if PyStr.truthy (String.rev_app d cur)
    then [String.rev (String.rev_app d cur)] else [].
Proof.
  induction d as [|c d IH]; intros cur Hd; [now destruct cur|].
  cbn [all_digits PyStr.split_ws_go String.rev_app] in *.
  destruct (PyStr.digit_of c) eqn:Hc; [|discriminate].
  rewrite digit_not_space by (rewrite Hc; eauto). now apply IH.
Qed.

Lemma split_heading (d : string) :
  all_digits d = true -> d <> EmptyString ->
  PyStr.split_ws ("Heading " +:+ d) = ["Heading"; d].
Proof.
  intros Hd Hne. unfold PyStr.split_ws.
  change ("Heading " +:+ d)
    with (String "H" (String "e" (String "a" (String "d" (String "i"
            (String "n" (String "g" (String " " d)))))))).
  cbn [PyStr.split_ws_go]. vm_compute (PyStr.isspace _).
  cbn [PyStr.truthy app]. change (String.rev "gnidaeH") with "Heading".
  rewrite (split_ws_go_digits d EmptyString Hd).
  unfold String.rev. rewrite rev_app_rev_app.
  change (String.rev_app EmptyString (d +:+ EmptyString)) with (d +:+ EmptyString).
  rewrite append_empty.
  assert (H : forall s t, t <> EmptyString -> PyStr.truthy (String.rev_app s t) = true).
  { clear. induction s as [|a s IH]; intros t Ht; [now destruct t|].
    cbn [String.rev_app]. now apply IH. }
  assert (Ht : PyStr.truthy (String.rev_app d EmptyString) = true).
  { destruct d as [|c d]; [congruence|]. cbn [String.rev_app]. now apply H. }
  now rewrite Ht.
Qed.

(** X17: a paragraph in the style "Heading <n>", with [n] written as
    Python writes it, is a heading of level [n] whatever its runs and
    their formatting, for every natural number [n] whose numeral has at
    most 4300 digits, the most [int] converts; for a longer numeral
    [int] raises [ValueError] and the level is 0.  The style "Title"
    gives level 1 whatever the runs. *)
Theorem numbered_heading_level (n : nat) (rs : list Run) :
  get_heading_level (mkParagraph ("Heading " +:+ pretty n) rs)
  = (if (String.length (pretty n) <=? PyStr.max_str_digits)%nat
     then Z.of_nat n else 0%Z)
  /\ get_heading_level (mkParagraph "Title" rs) = 1%Z.
Proof.
  split; [|reflexivity].
  destruct (pretty_nat_digits n) as (Hd & _ & Hne).
  unfold get_heading_level. cbn [style_name].
  assert (Hp : PyStr.startswith ("Heading " +:+ pretty n) "Heading" = true).
  { unfold PyStr.startswith.
    change ("Heading " +:+ pretty n)
      with (String "H" (String "e" (String "a" (String "d" (String "i"
              (String "n" (String "g" (String " " (pretty n))))))))).
    reflexivity. }
  rewrite Hp, (split_heading _ Hd Hne). cbn [List.last].
  rewrite int_pretty. now destruct (_ <=? _)%nat.
Qed.

(** ** Documents without code, documents without content *)

Lemma step_without_code image_refs p :
  classify image_refs p <> Code ->
  snd (paragraph_step image_refs false p) = false
  /\ forall e, e ∈ fst (paragraph_step image_refs false p) -> is_fence e = false.
Proof.
  intros Hc. rewrite classify_step.
  destruct (classify image_refs p); try congruence; cbn [fst snd close_code app].
  - split; [reflexivity|]. intros e He.
    apply list_elem_of_singleton in He as ->. reflexivity.
  - split; [reflexivity|]. intros e He.
    repeat (apply elem_of_cons in He as [->|He]; [reflexivity|]). inversion He.
  - split; [reflexivity|]. intros e He.
    destruct (PyStr.truthy _); [|inversion He].
    apply list_elem_of_singleton in He as ->. reflexivity.
  - split; [reflexivity|]. intros e He.
    apply list_elem_of_singleton in He as ->. reflexivity.
Qed.

Lemma loop_without_code image_refs ps :
  Forall (fun p => classify image_refs p <> Code) ps ->
  snd (paragraphs_loop image_refs false ps) = false
  /\ forall e, e ∈ fst (paragraphs_loop image_refs false ps) -> is_fence e = false.
Proof.
  induction 1 as [|p ps Hp _ IH]; [split; [reflexivity | intros e He; inversion He]|].
  cbn [paragraphs_loop].
  destruct (step_without_code image_refs p Hp) as [Hs Hf].
  destruct (paragraph_step image_refs false p) as [out b]. cbn [fst snd] in *. subst b.
  destruct IH as [IHs IHf].
  destruct (paragraphs_loop image_refs false ps) as [out' final]. cbn [fst snd] in *.
  split; [exact IHs|]. intros e He. apply elem_of_app in He as [He|He]; auto.
Qed.

(** X18: without a code paragraph there is no fence: when no paragraph
    of the document is classified Code, no line of the output comes from
    a fence statement, and the paragraph loop ends outside a code block. *)
Theorem no_code_no_fence (image_refs : gmap string string) (paragraphs : list Paragraph) :
  Forall (fun p => classify image_refs p <> Code) paragraphs ->
  snd (paragraphs_loop image_refs false paragraphs) = false
  /\ (forall e, e ∈ md_content image_refs paragraphs -> is_fence e = false)
  /\ count_opens (cleaned_emits image_refs paragraphs) = 0
  /\ count_closes (cleaned_emits image_refs paragraphs) = 0.
Proof.
  intros H. destruct (loop_without_code image_refs paragraphs H) as [Hs Hf].
  assert (Hmd : forall e, e ∈ md_content image_refs paragraphs -> is_fence e = false).
  { intros e He. rewrite md_content_eq, Hs in He. cbn [close_code] in He.
    rewrite app_nil_r in He. auto. }
  assert (Hcl : forall l last, (forall e, e ∈ l -> is_fence e = false) ->
                forall e, e ∈ clean_up render last l -> is_fence e = false).
  { clear. induction l as [|x l IH]; intros last Hl e He; [inversion He|].
    cbn [clean_up] in He.
    assert (Hx : is_fence x = false) by (apply Hl; now left).
    assert (Hl' : forall e, e ∈ l -> is_fence e = false) by (intros; apply Hl; now right).
    destruct (negb (is_blank render x)).
    - apply elem_of_cons in He as [->|He]; eauto.
    - destruct (negb last); [apply elem_of_cons in He as [->|He]|]; eauto. }
  assert (Hnone : forall l, (forall e, e ∈ l -> is_fence e = false) ->
                  count_opens l = 0 /\ count_closes l = 0).
  { clear. induction l as [|x l IH]; intros Hl; [split; reflexivity|].
    rewrite count_opens_cons, count_closes_cons.
    destruct IH as [-> ->]; [intros; apply Hl; now right|].
    assert (Hx : is_fence x = false) by (apply Hl; now left).
    unfold is_fence in Hx. apply orb_false_iff in Hx as [-> ->]. split; reflexivity. }
  split; [exact Hs|]. split; [exact Hmd|].
  apply Hnone. unfold cleaned_emits. apply Hcl, Hmd.
Qed.

Lemma empty_paragraphs_loop image_refs ps :
  Forall (fun p => classify image_refs p = Empty) ps ->
  paragraphs_loop image_refs false ps = (replicate (length ps) Blank, false).
Proof.
  induction 1 as [|p ps Hp _ IH]; [reflexivity|].
  cbn [paragraphs_loop]. rewrite classify_step, Hp, IH. reflexivity.
Qed.

Lemma clean_up_blanks n :
  clean_up id true (replicate n EmptyString) = [].
Proof. induction n as [|n IH]; [reflexivity | exact IH]. Qed.

(** X19: a document whose paragraphs all have no content (no text but
    white space, no resolved image) gives one empty line, however many
    paragraphs it has. *)
Theorem empty_paragraphs_one_blank (image_refs : gmap string string)
  (p : Paragraph) (ps : list Paragraph) :
  Forall (fun p => classify image_refs p = Empty) (p :: ps) ->
  md_lines image_refs (p :: ps) = replicate (S (length ps)) ""
  /\ cleaned_content image_refs (p :: ps) = [""].
Proof.
  intros H.
  assert (Hmd : md_content image_refs (p :: ps) = replicate (S (length ps)) Blank).
  { unfold md_content. rewrite (empty_paragraphs_loop _ _ H). cbn [close_code length].
    apply app_nil_r. }
  assert (Hl : md_lines image_refs (p :: ps) = replicate (S (length ps)) "").
  { unfold md_lines. rewrite Hmd. now rewrite fmap_replicate. }
  split; [exact Hl|].
  unfold cleaned_content. rewrite Hl. cbn [replicate clean_up].
  change (negb (is_blank id EmptyString)) with false. cbn [negb].
  now rewrite clean_up_blanks.
Qed.

(** ** The further properties at sample inputs *)


Lemma image_files_distinct_witness :
  NoDup ["out/images/d_image_1.png"; "out/images/d_image_3.png"].
Proof.
  exact (proj1 (image_files_distinct sample_disk "out/images" "d" sample_rels no_stats)).
Defined.

Lemma image_refs_complete_witness :
  image_refs (extract_images sample_disk "out/images" "d" sample_rels no_stats) !! "rId5"
  = Some "./images/d_image_3.png"
  /\ ~ is_Some (image_refs (extract_images all_writable "out/images" "d"
                              linked_rels no_stats) !! "rId3").
Proof.
  split.
  - apply (image_refs_complete sample_disk "out/images" "d" sample_rels no_stats).
    + apply (bool_decide_unpack _). vm_compute. reflexivity.
    + exists (3, mkRel "rId5" image_reltype (Present (mkPart (Some some_bytes)))
                   "media/scan.tiff").
      split; [apply list_elem_of_In; vm_compute; tauto|].
      repeat split.
  - intros [path H].
    apply (image_refs_complete all_writable "out/images" "d" linked_rels no_stats) in H
      as (a & Ha & Hid & _).
    + apply list_elem_of_singleton in Ha. subst a. discriminate Hid.
    + apply (bool_decide_unpack _). vm_compute. reflexivity.
Defined.

Lemma alt_text_sanitized_witness :
  alt_text_of (mkGraphic None (Some None)) = "Image".
Proof.
  destruct (alt_text_sanitized (mkGraphic None (Some None))) as (_ & _ & H).
  apply H. now right.
Defined.

Lemma code_line_has_no_tab_witness :
  snd (paragraph_step ∅ false (code_par (String "009" "x"))) = true
  /\ last (fst (paragraph_step ∅ false (code_par (String "009" "x"))))
     = Some (Line "    x").
Proof.
  destruct (code_line_has_no_tab ∅ false (code_par (String "009" "x")))
    as (H1 & H2 & _); [reflexivity|].
  split; [exact H1|]. rewrite H2. reflexivity.
Defined.

Lemma code_paragraphs_one_block_witness :
  cleaned_content ∅ [code_par "a"; code_par "b"]
  = [EmptyString; "```"; "a"; "b"; "```"; EmptyString]
  /\ cleaned_content one_image
       [mkParagraph "Code" [captioned_image "rId1"];
        mkParagraph "Code" [captioned_image "rId1"];
        mkParagraph "Code" [captioned_image "rId1"]]
     = [EmptyString; "```"; EmptyString; "```"; EmptyString].
Proof.
  split.
  - destruct (code_paragraphs_one_block ∅ (code_par "a") [code_par "b"])
      as (_ & _ & _ & H); [repeat constructor|].
    apply H. repeat constructor.
  - destruct (code_paragraphs_one_block one_image
                (mkParagraph "Code" [captioned_image "rId1"])
                [mkParagraph "Code" [captioned_image "rId1"];
                 mkParagraph "Code" [captioned_image "rId1"]])
      as (_ & _ & H & _); [repeat constructor|].
    exact H.
Defined.


Lemma extract_images_frame_witness :
  file_image_counts
    (stats (extract_images sample_disk "out/images" "d" sample_rels no_stats)) !! "e"
  = None.
Proof.
  destruct (extract_images_frame sample_disk "out/images" "d" sample_rels no_stats)
    as (_ & _ & _ & _ & _ & H).
  rewrite (H "e"); [reflexivity | discriminate].
Defined.


Lemma unopened_document_leaves_nothing_witness :
  exists e,
    convert_to_markdown sample_os "in/missing.docx" "out" no_stats
    = {| conv_result := Raise e;
         conv_stats :=
           add_failed_file no_stats ("in/missing.docx", failure_text "in/missing.docx" e);
         conv_images := [];
         conv_markdown := None |}
    /\ e = mkExn FileNotFoundError "File not found: in/missing.docx".
Proof.
  destruct (unopened_document_leaves_nothing sample_os "in/missing.docx" "out" no_stats)
    as (e & H1 & H2 & _); [now left|].
  exists e. split; [exact H1 | now apply H2].
Defined.

Lemma convert_success_witness :
  conv_result (convert_to_markdown sample_os "in/d.docx" "out" no_stats) = Ok "out/./d.md"
  /\ conv_markdown (convert_to_markdown sample_os "in/d.docx" "out" no_stats)
     = Some ("out/./d.md",
             String.concat (String "010" EmptyString)
               ["t"; ""; "![logo](./images/d_image_1.png)"; ""; "```"; "c"; "```"; ""]).
Proof.
  assert (H : conv_result (convert_to_markdown sample_os "in/d.docx" "out" no_stats)
              = Ok "out/./d.md") by (vm_compute; reflexivity).
  split; [exact H|].
  destruct (convert_success sample_os "in/d.docx" "out" no_stats "out/./d.md" H)
    as (n & doc & rel_path & _ & _ & _ & Hdoc & Hrel & H').
  cbn zeta in H'. destruct H' as (_ & _ & _ & _ & ->).
  injection Hdoc as <-. injection Hrel as <-. vm_compute. reflexivity.
Defined.

Lemma process_directory_returns_witness :
  converted_files (process_directory sample_os "in" "out" no_stats)
  = [("in/d.docx", "out/./d.md")]
  /\ os_read_header sample_os "in/d.docx" = Ok zip_header.
Proof.
  destruct (process_directory_returns sample_os "in" "out" no_stats) as (H1 & _ & H3).
  split; [rewrite H1; vm_compute; reflexivity|].
  apply (H3 "in/d.docx" "out/./d.md"). rewrite H1.
  apply list_elem_of_In. vm_compute. tauto.
Defined.

Lemma main_exit_status_witness :
  (main sample_os "in" "out").1 = 1%Z
  /\ failed_images (main sample_os "in" "out").2
     = [("d", "Failed to extract image 2 from d: disk full")].
Proof.
  destruct (main_exit_status sample_os "in" "out") as [[H|H] H2].
  - exfalso. apply H2 in H as (_ & _ & H). vm_compute in H. discriminate H.
  - split; [exact H | vm_compute; reflexivity].
Defined.

Lemma unreadable_files_pass_witness :
  main locked_os "in" "out"
  = (0%Z, {| total_files := 2; successful_files := []; failed_files := [];
             total_images := 0; failed_images := []; file_image_counts := ∅ |}).
Proof.
  destruct (unreadable_files_pass locked_os "in" "out") as (H & _).
  - reflexivity.
  - exists tt. reflexivity.
  - intros p _. eexists. reflexivity.
  - rewrite H. reflexivity.
Defined.

Lemma no_code_no_fence_witness :
  count_opens (cleaned_emits ∅ [text_par "t"; blank_par]) = 0
  /\ count_closes (cleaned_emits ∅ [text_par "t"; blank_par]) = 0.
Proof.
  destruct (no_code_no_fence ∅ [text_par "t"; blank_par]) as (_ & _ & H).
  - repeat constructor; discriminate.
  - exact H.
Defined.

Lemma empty_paragraphs_one_blank_witness :
  cleaned_content ∅ [blank_par; mkParagraph "Code" []; blank_par] = [""].
Proof.
  apply (empty_paragraphs_one_blank ∅ blank_par [mkParagraph "Code" []; blank_par]).
  repeat constructor.
Defined.

Lemma linked_image_stops_extraction_witness :
  let r := extract_images all_writable "out/images" "d" linked_rels no_stats in
  written_files r = [("out/images/d_image_1.png", some_bytes)]
  /\ image_refs r !! "rId3" = None
  /\ failed_images (stats r) = [("d", process_error "d" linked_msg)]
  /\ file_image_counts (stats r) = ∅.
Proof.
  cbn zeta.
  destruct (linked_image_stops_extraction all_writable "out/images" "d"
              [mkRel "rId1" image_reltype (Present (mkPart (Some some_bytes)))
                 "media/image1.png"]
              (mkRel "rId2" image_reltype (Raising linked_msg)
                 "http://example.org/logo.gif")
              [mkRel "rId3" image_reltype (Present (mkPart (Some some_bytes)))
                 "media/image3.png"]
              linked_msg no_stats)
    as (_ & H2 & _ & H4 & _ & H6 & H7); [repeat constructor | reflexivity |].
  cbn zeta in H2, H4, H6, H7.
  split; [exact H2|]. split.
  - apply (H7 (mkRel "rId3" image_reltype (Present (mkPart (Some some_bytes)))
                 "media/image3.png")); [left|].
    intros H. apply list_elem_of_singleton in H. discriminate H.
  - split; [exact H4 | exact H6].
Defined.
